(** * MediaCore: podcast admin controller and FTP storage form

    A shallow embedding of

    - [mediacore/forms/admin/storage/ftp.py] ([FTPStorageForm.display],
      [FTPStorageForm.save_engine_params]) and
    - [mediacore/controllers/podcastadmin.py] ([edit], [save],
      [save_thumb]),

    with Python dictionaries as finite maps, Python objects in a heap
    of references, and exceptions and mutation threaded through a
    small state-and-exception monad. *)

From Stdlib Require Import ZArith String.
From stdpp Require Import base option gmap strings list fin_maps.

Local Open Scope string_scope.
Local Open Scope Z_scope.

(** ** Python values *)

Local Set Warnings "-register-all".

(** The dynamically typed values that travel through the two files:
    [None], booleans, integers, (unicode) strings, and string-keyed
    dictionaries of such values. *)
Inductive val : Type :=
  | VNone
  | VBool (b : bool)
  | VInt (n : Z)
  | VStr (s : string)
  | VDict (d : gmap string val).

(** Python truthiness, as used by [x or y], [x and y] and [if x:]. *)
Definition truthy (v : val) : bool :=
  match v with
  | VNone => false
  | VBool b => b
  | VInt n => negb (n =? 0)
  | VStr s => negb (String.eqb s "")
  | VDict d => negb (bool_decide (d = ∅))
  end.

(** [a or b] *)
Definition py_or (a b : val) : val := if truthy a then a else b.

(** [a and b] *)
Definition py_and (a b : val) : val := if truthy a then b else a.

(** ** Exceptions *)

(** Instances of (subclasses of) [Exception], which is what library
    code raises and what [except Exception] matches.  [HTTPFound] is
    the exception through which [redirect] leaves an action; it
    carries the target action and the [id] routing argument. *)
Inductive exn : Type :=
  | IOError (msg : string)
  | KeyError (key : string)
  | TypeError (msg : string)
  | AttributeError (msg : string)
  | InvalidRequestError (msg : string)
  | HTTPNotFound
  | HTTPFound (action : string) (id : option Z)
  | OtherError (cls : string) (msg : string).

(** [isinstance(e, IOError)] *)
Definition is_IOError (e : exn) : bool :=
  match e with IOError _ => true | _ => false end.

(** [e.message]: the text the exception was built with (for a
    [KeyError], the key); the two HTTP exceptions are built without
    one. *)
Definition message (e : exn) : string :=
  match e with
  | IOError m | TypeError m | AttributeError m
  | InvalidRequestError m | OtherError _ m => m
  | KeyError k => k
  | HTTPNotFound | HTTPFound _ _ => ""
  end.

(** ** State and exceptions *)

Inductive outcome (A : Type) : Type :=
  | Ret (a : A)
  | Raise (e : exn).
Arguments Ret {A} a.
Arguments Raise {A} e.

(** A computation over a mutable state [S]: it ends by returning or by
    raising, and in both cases leaves a state behind (what was written
    before an exception stays written). *)
Definition M (S A : Type) : Type := S -> outcome A * S.

Definition ret {S A} (a : A) : M S A := fun s => (Ret a, s).
Definition raise {S A} (e : exn) : M S A := fun s => (Raise e, s).
Definition bind {S A B} (m : M S A) (k : A -> M S B) : M S B :=
  fun s => match m s with
           | (Ret a, s') => k a s'
           | (Raise e, s') => (Raise e, s')
           end.
Definition get {S} : M S S := fun s => (Ret s, s).
Definition put {S} (s : S) : M S unit := fun _ => (Ret tt, s).
Definition modify {S} (f : S -> S) : M S unit := fun s => (Ret tt, f s).
Definition lift {S A} (o : outcome A) : M S A := fun s => (o, s).

(** [try: body except Exception, e: handler e] *)
Definition try_except {S A} (body : M S A) (handler : exn -> M S A) : M S A :=
  fun s => match body s with
           | (Ret a, s') => (Ret a, s')
           | (Raise e, s') => handler e s'
           end.

Notation "x <- m ;; k" := (bind m (fun x => k))
  (at level 100, m at next level, right associativity).
Notation "m ;;; k" := (bind m (fun _ => k))
  (at level 100, right associativity).

(** [for x in xs: body x] *)
Fixpoint for_each {S A} (xs : list A) (body : A -> M S unit) : M S unit :=
  match xs with
  | [] => ret tt
  | x :: xs' => body x ;;; for_each xs' body
  end.

(** ** Dictionaries *)

(** [d[k]] *)
Definition getitem {S} (d : gmap string val) (k : string) : M S val :=
  match d !! k with
  | Some v => ret v
  | None => raise (KeyError k)
  end.

(** [d.get(k, dflt)] *)
Definition dict_get (d : gmap string val) (k : string) (dflt : val) : val :=
  default dflt (d !! k).

(** [d.setdefault(k, dflt)]: the dictionary afterwards and the value
    returned. *)
Definition setdefault (d : gmap string val) (k : string) (dflt : val)
  : gmap string val * val :=
  match d !! k with
  | Some v => (d, v)
  | None => (<[k := dflt]> d, dflt)
  end.

(** * [mediacore/forms/admin/storage/ftp.py] *)

Module FTPStorageForm.

(** A storage engine, of which the form touches the [_data] dictionary
    only. *)
Record Engine := { _data : gmap string val }.

Section Form.
(** The parent class's [StorageForm.display], defined in
    [mediacore.forms.admin.storage]: it receives the prepared [value]
    dictionary (and may itself write to it) and renders the form. *)
Context {Html : Type}.
Variable StorageForm_display : Engine -> M (gmap string val) Html.

(** [display(self, value, **kwargs)], up to the call of the parent
    class.  The state is the caller's [value] dictionary; [engine_kw]
    is [kwargs['engine']] when that keyword is given.  [specifics] is
    the very dictionary stored under [value['specifics']], so what
    [setdefault] adds to it is seen through [value]. *)
Definition display_defaults (engine_kw : option Engine)
  : M (gmap string val) Engine :=
  engine <- match engine_kw with
            | Some e => ret e
            | None => raise (KeyError "engine")
            end ;;
  value <- get ;;
  let '(value, specifics) := setdefault value "specifics" (VDict ∅) in
  put value ;;;
  match specifics with
  | VDict specifics =>
      let specifics :=
        (setdefault specifics "path"
           (dict_get (_data engine) "path" VNone)).1 in
      let specifics :=
        (setdefault specifics "rtmp_server_uri"
           (dict_get (_data engine) "rtmp_server_uri" VNone)).1 in
      put (<["specifics" := VDict specifics]> value) ;;;
      ret engine
  | VNone =>
      raise (AttributeError "'NoneType' object has no attribute 'setdefault'")
  | _ => raise (AttributeError "object has no attribute 'setdefault'")
  end.

(** [display]: the defaults, then [StorageForm.display(self, value,
    **kwargs)]. *)
Definition display (engine_kw : option Engine) : M (gmap string val) Html :=
  engine <- display_defaults engine_kw ;;
  StorageForm_display engine.

(** [engine._data[k] = v] *)
Definition data_setitem (k : string) (v : val) : M Engine unit :=
  modify (fun engine => {| _data := <[k := v]> (_data engine) |}).

(** [specifics[k]] where [specifics] defaults to [None] *)
Definition specifics_getitem (specifics : option (gmap string val))
    (k : string) : M Engine val :=
  match specifics with
  | Some d => getitem d k
  | None => raise (TypeError "'NoneType' object is unsubscriptable")
  end.

(** [save_engine_params(self, engine, specifics=None, **kwargs)]; the
    state is the engine. *)
Definition save_engine_params (specifics : option (gmap string val))
  : M Engine unit :=
  path <- specifics_getitem specifics "path" ;;
  data_setitem "path" (py_or path VNone) ;;;
  uri <- specifics_getitem specifics "rtmp_server_uri" ;;
  data_setitem "rtmp_server_uri" (py_or uri VNone).

(** *** Vocabulary for the properties *)

(** The parent class's [display] leaves [value['specifics']] as it
    finds it. *)
Definition keeps_specifics : Prop :=
  forall (e : Engine) (value : gmap string val),
    (StorageForm_display e value).2 !! "specifics" = value !! "specifics".

(** [d] is the dictionary [value.setdefault('specifics', {})] yields. *)
Definition specifics_of (value d : gmap string val) : Prop :=
  value !! "specifics" = Some (VDict d) \/
  (value !! "specifics" = None /\ d = ∅).

End Form.

End FTPStorageForm.

(** * [mediacore/controllers/podcastadmin.py] *)

(** ** The mapped classes *)

Module Author.
Record t := { name : val; email : val }.
End Author.

Module Podcast.
(** [id] is the primary key: [None] until the object has been
    flushed to the database.  [explicit] is a nullable boolean
    column. *)
Record t := {
  id : option Z;
  slug : val;
  title : val;
  subtitle : val;
  author : option Author.t;
  description : val;
  copyright : val;
  category : val;
  itunes_url : val;
  feedburner_url : val;
  explicit : option bool;
}.

(** [Podcast()] *)
Definition new : t :=
  {| id := None; slug := VNone; title := VNone; subtitle := VNone;
     author := None; description := VNone; copyright := VNone;
     category := VNone; itunes_url := VNone; feedburner_url := VNone;
     explicit := None |}.

Definition set_id v p :=
  {| id := v; slug := slug p; title := title p; subtitle := subtitle p;
     author := author p; description := description p;
     copyright := copyright p; category := category p;
     itunes_url := itunes_url p; feedburner_url := feedburner_url p;
     explicit := explicit p |}.
Definition set_slug v p :=
  {| id := id p; slug := v; title := title p; subtitle := subtitle p;
     author := author p; description := description p;
     copyright := copyright p; category := category p;
     itunes_url := itunes_url p; feedburner_url := feedburner_url p;
     explicit := explicit p |}.
Definition set_title v p :=
  {| id := id p; slug := slug p; title := v; subtitle := subtitle p;
     author := author p; description := description p;
     copyright := copyright p; category := category p;
     itunes_url := itunes_url p; feedburner_url := feedburner_url p;
     explicit := explicit p |}.
Definition set_subtitle v p :=
  {| id := id p; slug := slug p; title := title p; subtitle := v;
     author := author p; description := description p;
     copyright := copyright p; category := category p;
     itunes_url := itunes_url p; feedburner_url := feedburner_url p;
     explicit := explicit p |}.
Definition set_author v p :=
  {| id := id p; slug := slug p; title := title p; subtitle := subtitle p;
     author := v; description := description p;
     copyright := copyright p; category := category p;
     itunes_url := itunes_url p; feedburner_url := feedburner_url p;
     explicit := explicit p |}.
Definition set_description v p :=
  {| id := id p; slug := slug p; title := title p; subtitle := subtitle p;
     author := author p; description := v;
     copyright := copyright p; category := category p;
     itunes_url := itunes_url p; feedburner_url := feedburner_url p;
     explicit := explicit p |}.
Definition set_copyright v p :=
  {| id := id p; slug := slug p; title := title p; subtitle := subtitle p;
     author := author p; description := description p;
     copyright := v; category := category p;
     itunes_url := itunes_url p; feedburner_url := feedburner_url p;
     explicit := explicit p |}.
Definition set_category v p :=
  {| id := id p; slug := slug p; title := title p; subtitle := subtitle p;
     author := author p; description := description p;
     copyright := copyright p; category := v;
     itunes_url := itunes_url p; feedburner_url := feedburner_url p;
     explicit := explicit p |}.
Definition set_itunes_url v p :=
  {| id := id p; slug := slug p; title := title p; subtitle := subtitle p;
     author := author p; description := description p;
     copyright := copyright p; category := category p;
     itunes_url := v; feedburner_url := feedburner_url p;
     explicit := explicit p |}.
Definition set_feedburner_url v p :=
  {| id := id p; slug := slug p; title := title p; subtitle := subtitle p;
     author := author p; description := description p;
     copyright := copyright p; category := category p;
     itunes_url := itunes_url p; feedburner_url := v;
     explicit := explicit p |}.
Definition set_explicit v p :=
  {| id := id p; slug := slug p; title := title p; subtitle := subtitle p;
     author := author p; description := description p;
     copyright := copyright p; category := category p;
     itunes_url := itunes_url p; feedburner_url := feedburner_url p;
     explicit := v |}.
End Podcast.

(** ** JSON *)

Inductive json : Type :=
  | JNull
  | JBool (b : bool)
  | JInt (n : Z)
  | JStr (s : string).

(** How [json.dumps] renders [podcast.id]. *)
Definition json_of_id (i : option Z) : json :=
  match i with Some k => JInt k | None => JNull end.

(** How [json.dumps] renders [message]. *)
Definition json_of_message (m : option string) : json :=
  match m with Some s => JStr s | None => JNull end.

Module Podcastadmin.

(** ** The request's world *)

(** What outlives a request: the [podcasts] table, by primary key, and
    the files on disk. *)
Record Database := {
  db_table : gmap Z Podcast.t;
  db_files : gmap string (list Byte.byte);
}.

(** The state an action runs in.  [heap] holds the [Podcast] objects
    of the request, referred to by their index; [attached] are the
    objects the [DBSession] knows (loaded by a query or handed to
    [DBSession.add]), [deleted] those handed to [DBSession.delete];
    [flushes] counts the calls of [DBSession.flush]; [headers] is
    [response.headers]. *)
Record World := {
  heap : list Podcast.t;
  attached : list nat;
  deleted : list nat;
  table : gmap Z Podcast.t;
  flushes : nat;
  headers : gmap string string;
  files : gmap string (list Byte.byte);
}.

(** A request starts with no objects and an empty session. *)
Definition new_request (db : Database) : World :=
  {| heap := []; attached := []; deleted := []; table := db_table db;
     flushes := 0; headers := ∅; files := db_files db |}.

Definition set_heap h w :=
  {| heap := h; attached := attached w; deleted := deleted w;
     table := table w; flushes := flushes w; headers := headers w;
     files := files w |}.
Definition set_attached a w :=
  {| heap := heap w; attached := a; deleted := deleted w;
     table := table w; flushes := flushes w; headers := headers w;
     files := files w |}.
Definition set_deleted d w :=
  {| heap := heap w; attached := attached w; deleted := d;
     table := table w; flushes := flushes w; headers := headers w;
     files := files w |}.
Definition set_table t w :=
  {| heap := heap w; attached := attached w; deleted := deleted w;
     table := t; flushes := flushes w; headers := headers w;
     files := files w |}.
Definition set_flushes n w :=
  {| heap := heap w; attached := attached w; deleted := deleted w;
     table := table w; flushes := n; headers := headers w;
     files := files w |}.
Definition set_headers h w :=
  {| heap := heap w; attached := attached w; deleted := deleted w;
     table := table w; flushes := flushes w; headers := h;
     files := files w |}.
Definition set_files f w :=
  {| heap := heap w; attached := attached w; deleted := deleted w;
     table := table w; flushes := flushes w; headers := headers w;
     files := f |}.

(** ** Objects *)

(** A new object on the heap; the result is the reference to it. *)
Definition alloc (p : Podcast.t) : M World nat :=
  w <- get ;;
  put (set_heap (heap w ++ [p]) w) ;;;
  ret (length (heap w)).

(** Reading the object behind a reference (for [podcast.attr]). *)
Definition getobj (l : nat) : M World Podcast.t :=
  w <- get ;;
  match heap w !! l with
  | Some p => ret p
  | None => raise (OtherError "ReferenceError" "dangling reference")
  end.

(** [podcast.attr = v], with [f] the setter of [attr] at [v]. *)
Definition setattr (l : nat) (f : Podcast.t -> Podcast.t) : M World unit :=
  p <- getobj l ;;
  modify (fun w => set_heap (<[l := f p]> (heap w)) w).

(** ** The database session *)

Definition mem (l : nat) (ls : list nat) : bool := existsb (Nat.eqb l) ls.

(** [DBSession.add(obj)] *)
Definition DBSession_add (l : nat) : M World unit :=
  modify (fun w =>
    if mem l (attached w) then w else set_attached (attached w ++ [l]) w).

(** [DBSession.delete(obj)]: only an object that is a row of the table
    can be marked for deletion. *)
Definition DBSession_delete (l : nat) : M World unit :=
  p <- getobj l ;;
  match Podcast.id p with
  | Some _ => modify (fun w => set_deleted (l :: deleted w) w)
  | None => raise (InvalidRequestError "Instance is not persisted")
  end.

(** What a flush does with one object of the session: a deleted one
    loses its row; a new one receives a primary key not in use and is
    inserted; any other one has its row updated. *)
Definition flush_one (w : World) (l : nat) : World :=
  match heap w !! l with
  | None => w
  | Some p =>
      match Podcast.id p with
      | Some k =>
          if mem l (deleted w) then set_table (delete k (table w)) w
          else set_table (<[k := p]> (table w)) w
      | None =>
          let k := fresh (dom (table w)) in
          let p := Podcast.set_id (Some k) p in
          set_table (<[k := p]> (table w)) (set_heap (<[l := p]> (heap w)) w)
      end
  end.

(** [DBSession.flush()] *)
Definition DBSession_flush : M World unit :=
  modify (fun w =>
    let w' := foldl flush_one w (attached w) in
    set_flushes (S (flushes w))
      (set_deleted []
         (set_attached
            (filter (fun l => negb (mem l (deleted w))) (attached w)) w'))).

(** ** Requests and what the actions call *)

(** The [id] routing argument: ["new"] or a primary key. *)
Inductive IdArg := New | Pk (k : Z).

(** [id == 'new'] *)
Definition is_new (id : IdArg) : bool :=
  match id with New => true | Pk _ => false end.

(** An uploaded file ([cgi.FieldStorage]): its name, if any, and the
    bytes behind [thumb.file]. *)
Record FieldStorage := { filename : val; file : list Byte.byte }.

(** What the actions call and the controller does not define: the
    imaging library, the configuration, and helpers of
    [mediacore.lib.helpers] and [mediacore.model]. *)
Class Externals := {
  (** a decoded image *)
  Image : Type;
  (** [Image.open(fp)]: raises [IOError] when the bytes are not an
      image it can identify *)
  Image_open : list Byte.byte -> outcome Image;
  (** the bytes [img.save(path)] writes, the format following the
      extension of [path] *)
  Image_encode : Image -> string -> outcome (list Byte.byte);
  (** [helpers.resize_thumb(img, xy)] *)
  resize_thumb : Image -> Z * Z -> outcome Image;
  (** [helpers.thumb_path(item, size)] and [helpers.thumb_path(item,
      size, ext=e)] *)
  thumb_path : Podcast.t -> string -> option string -> string;
  (** [config.thumb_sizes] *)
  thumb_sizes : gmap string (list (string * (Z * Z)));
  (** [Podcast._thumb_dir] *)
  _thumb_dir : string;
  (** whether [open(path, 'w+b')] succeeds *)
  writable : string -> bool;
  (** [os.path.splitext(name)[1]] *)
  splitext_ext : string -> string;
  (** [s.lower()] *)
  lower : string -> string;
  (** [helpers.best_json_content_type()] *)
  best_json_content_type : string;
  (** [get_available_slug(Podcast, slug, podcast)], which reads the
      table *)
  get_available_slug : gmap Z Podcast.t -> val -> Podcast.t -> val;
  (** [helpers.clean_admin_xhtml(text)] *)
  clean_admin_xhtml : val -> val;
  (** [url_for(action=a)] *)
  url_for : string -> string;
  (** the slug, title and author [create_podcast_stub] fills in *)
  stub_slug : val;
  stub_title : val;
  stub_author : Author.t;
}.

Section Actions.
Context `{Externals}.

(** Modelled from the spec: [fetch_row] is defined in
    [mediacore.model], not in the controller.  The actions use it to
    "fetch a row"; per their docstrings [id] is an [int] or ["new"],
    and for ["new"] the forms are filled from a fresh, unsaved
    instance.  A key with no row ends the request with a 404. *)
Definition fetch_row (id : IdArg) : M World nat :=
  match id with
  | New => alloc Podcast.new
  | Pk k =>
      w <- get ;;
      match table w !! k with
      | Some row =>
          l <- alloc (Podcast.set_id (Some k) row) ;;
          DBSession_add l ;;;
          ret l
      | None => raise HTTPNotFound
      end
  end.

(** Modelled from the spec: [create_podcast_stub] is defined in
    [mediacore.model.podcasts], not in the controller.  Per the
    docstring of [save_thumb] it creates a new stub: an instance with
    placeholder values that has not been handed to the session, and
    so has no primary key yet. *)
Definition create_podcast_stub : M World nat :=
  alloc (Podcast.set_author (Some stub_author)
           (Podcast.set_title stub_title
              (Podcast.set_slug stub_slug Podcast.new))).

(** [redirect(action=a, id=i)] leaves the action by raising. *)
Definition redirect {A} (action : string) (id : option Z) : M World A :=
  raise (HTTPFound action id).

(** *** [edit] *)

(** [{True: 'yes', False: 'clean'}.get(flag, 'no')] *)
Definition explicit_display (flag : option bool) : string :=
  match flag with
  | Some true => "yes"
  | Some false => "clean"
  | None => "no"
  end.

(** [podcast.author and podcast.author.name or None] (with [attr]
    the attribute read); an [Author] instance is truthy. *)
Definition author_attr (attr : Author.t -> val) (a : option Author.t) : val :=
  match a with
  | Some a => py_or (attr a) VNone
  | None => VNone
  end.

(** The template context [edit] returns; the two form objects are
    module constants and are left out. *)
Record EditContext := {
  podcast : nat;
  form_action : string;
  form_values : gmap string val;
  thumb_action : string;
  thumb_form_errors : gmap string val;
}.

(** [edit(self, id, **values)]; [action] and [form_errors] are
    [tmpl_context.action] and [tmpl_context.form_errors]. *)
Definition edit (action : string) (form_errors : gmap string val)
    (id : IdArg) (values : gmap string val) : M World EditContext :=
  podcast <- fetch_row id ;;
  p <- getobj podcast ;;
  let form_values : gmap string val :=
    {[ "slug" := Podcast.slug p;
       "title" := Podcast.title p;
       "subtitle" := Podcast.subtitle p;
       "author_name" := author_attr Author.name (Podcast.author p);
       "author_email" := author_attr Author.email (Podcast.author p);
       "description" := Podcast.description p;
       "details" := VDict
         {[ "explicit" := VStr (explicit_display (Podcast.explicit p));
            "category" := Podcast.category p;
            "copyright" := Podcast.copyright p;
            "itunes_url" := Podcast.itunes_url p;
            "feedburner_url" := Podcast.feedburner_url p ]} ]} in
  (* form_values.update(values) *)
  let form_values := values ∪ form_values in
  let thumb_form_errors :=
    if String.eqb action "save_thumb" then form_errors else ∅ in
  ret {| podcast := podcast;
         form_action := url_for "save";
         form_values := form_values;
         thumb_action := url_for "save_thumb";
         thumb_form_errors := thumb_form_errors |}.

(** *** [save] *)

(** [{'yes': True, 'clean': False}.get(choice, None)]; a dictionary
    is not hashable and cannot be looked up. *)
Definition explicit_parse (choice : val) : outcome (option bool) :=
  match choice with
  | VStr s =>
      if String.eqb s "yes" then Ret (Some true)
      else if String.eqb s "clean" then Ret (Some false)
      else Ret None
  | VDict _ => Raise (TypeError "unhashable type: 'dict'")
  | _ => Ret None
  end.

(** [save(self, id, slug, title, subtitle, author_name, author_email,
    description, details, delete=None, **kwargs)].  Both ways out are
    redirects. *)
Definition save (id : IdArg)
    (slug title subtitle author_name author_email description : val)
    (details : gmap string val) (delete : val) : M World unit :=
  podcast <- fetch_row id ;;

  (if truthy delete then
     DBSession_delete podcast ;;;
     DBSession_flush ;;;
     redirect "index" None
   else ret tt) ;;;

  w <- get ;;
  p <- getobj podcast ;;
  setattr podcast (Podcast.set_slug (get_available_slug (table w) slug p)) ;;;
  setattr podcast (Podcast.set_title title) ;;;
  setattr podcast (Podcast.set_subtitle subtitle) ;;;
  setattr podcast
    (Podcast.set_author
       (Some {| Author.name := author_name; Author.email := author_email |})) ;;;
  setattr podcast (Podcast.set_description (clean_admin_xhtml description)) ;;;
  v <- getitem details "copyright" ;;
  setattr podcast (Podcast.set_copyright v) ;;;
  v <- getitem details "category" ;;
  setattr podcast (Podcast.set_category v) ;;;
  v <- getitem details "itunes_url" ;;
  setattr podcast (Podcast.set_itunes_url v) ;;;
  v <- getitem details "feedburner_url" ;;
  setattr podcast (Podcast.set_feedburner_url v) ;;;
  v <- getitem details "explicit" ;;
  flag <- lift (explicit_parse v) ;;
  setattr podcast (Podcast.set_explicit flag) ;;;

  DBSession_add podcast ;;;
  DBSession_flush ;;;
  p <- getobj podcast ;;
  redirect "edit" (Podcast.id p).

(** *** [save_thumb] *)

(** [open(path, 'w+b')] followed by writing [bytes] and closing. *)
Definition write_file (path : string) (bytes : list Byte.byte) : M World unit :=
  if writable path
  then modify (fun w => set_files (<[path := bytes]> (files w)) w)
  else raise (IOError "No such file or directory").

(** [img.save(path)] *)
Definition Image_save (img : Image) (path : string) : M World unit :=
  bytes <- lift (Image_encode img path) ;;
  write_file path bytes.

(** [config.thumb_sizes[podcast._thumb_dir].iteritems()] *)
Definition podcast_thumb_sizes : M World (list (string * (Z * Z))) :=
  match thumb_sizes !! _thumb_dir with
  | Some sizes => ret sizes
  | None => raise (KeyError _thumb_dir)
  end.

(** [os.path.splitext(thumb.filename)[1].lower()[1:]] *)
Definition backup_type_of (filename : val) : M World string :=
  match filename with
  | VStr name =>
      match lower (splitext_ext name) with
      | String _ rest => ret rest
      | EmptyString => ret EmptyString
      end
  | _ => raise (AttributeError "object has no attribute 'rfind'")
  end.

(** The body of the [try] block. *)
Definition process_thumb (id : IdArg) (podcast : nat) (thumb : FieldStorage)
  : M World (bool * option string) :=
  (* Create jpeg thumbs *)
  img <- lift (Image_open (file thumb)) ;;

  (if is_new id then
     DBSession_add podcast ;;;
     DBSession_flush
   else ret tt) ;;;

  sizes <- podcast_thumb_sizes ;;
  for_each sizes (fun '(key, xy) =>
    p <- getobj podcast ;;
    let thumb_path := thumb_path p key None in
    thumb_img <- lift (resize_thumb img xy) ;;
    Image_save thumb_img thumb_path) ;;;

  (* Backup the original image just for kicks *)
  backup_type <- backup_type_of (filename thumb) ;;
  p <- getobj podcast ;;
  let backup_path := thumb_path p "orig" (Some backup_type) in
  write_file backup_path (file thumb) ;;;

  ret (true, None).

(** The two [except] clauses. *)
Definition thumb_error (e : exn) : M World (bool * option string) :=
  if is_IOError e then ret (false, Some "Unsupported image type")
  else ret (false, Some (message e)).

(** [save_thumb(self, id, thumb, **values)].  The result is the
    object that [json.dumps] serialises into the body. *)
Definition save_thumb (id : IdArg) (thumb : FieldStorage)
  : M World (gmap string json) :=
  podcast <- (if is_new id then create_podcast_stub else fetch_row id) ;;

  result <- try_except (process_thumb id podcast thumb) thumb_error ;;
  let '(success, message) := result in

  modify (fun w =>
    set_headers (<["Content-Type" := best_json_content_type]> (headers w)) w) ;;;
  p <- getobj podcast ;;
  ret ({[ "success" := JBool success;
          "message" := json_of_message message;
          "id" := json_of_id (Podcast.id p) ]} : gmap string json).

(** *** Vocabulary for the properties *)

(** A relation between the world before and after that every step of
    a computation maintains. *)
Definition maintains {A} (R : World -> World -> Prop) (m : M World A) : Prop :=
  forall w, R w (m w).2.

(** Only the files differ. *)
Definition same_session (w w' : World) : Prop :=
  heap w' = heap w /\ attached w' = attached w /\ deleted w' = deleted w /\
  table w' = table w /\ flushes w' = flushes w.

(** The heap keeps its size. *)
Definition same_objects (w w' : World) : Prop :=
  length (heap w') = length (heap w).

(** The first statement of [save_thumb]. *)
Definition load_podcast (id : IdArg) : M World nat :=
  if is_new id then create_podcast_stub else fetch_row id.

(** The [try] block from the loop over the thumbnail sizes on. *)
Definition store_thumbs (podcast : nat) (img : Image) (thumb : FieldStorage)
  : M World (bool * option string) :=
  sizes <- podcast_thumb_sizes ;;
  for_each sizes (fun '(key, xy) =>
    p <- getobj podcast ;;
    let thumb_path := thumb_path p key None in
    thumb_img <- lift (resize_thumb img xy) ;;
    Image_save thumb_img thumb_path) ;;;
  backup_type <- backup_type_of (filename thumb) ;;
  p <- getobj podcast ;;
  let backup_path := thumb_path p "orig" (Some backup_type) in
  write_file backup_path (file thumb) ;;;
  ret (true, None).

(** The object [create_podcast_stub] builds. *)
Definition podcast_stub : Podcast.t :=
  Podcast.set_author (Some stub_author)
    (Podcast.set_title stub_title (Podcast.set_slug stub_slug Podcast.new)).

(** The podcast an [id] designates exists: it is to be created, or
    its row is in the table. *)
Definition found (db : Database) (id : IdArg) : Prop :=
  match id with
  | New => True
  | Pk k => is_Some (db_table db !! k)
  end.

(** The body with an integer [id] in every case. *)
Definition body_with_integer_id (body : gmap string json) : Prop :=
  dom body = ({[ "success"; "message"; "id" ]} : gset string) /\
  (exists success : bool,
      body !! "success" = Some (JBool success) /\
      (if success then body !! "message" = Some JNull
       else exists s, body !! "message" = Some (JStr s))) /\
  (exists k, body !! "id" = Some (JInt k)).

(** The object [fetch_row] hands to [save] at the start of a
    request. *)
Definition fetched (db : Database) (id : IdArg) : option Podcast.t :=
  match id with
  | New => Some Podcast.new
  | Pk k => Podcast.set_id (Some k) <$> db_table db !! k
  end.

(** The key under which the podcast is stored after a flush. *)
Definition key_of (db : Database) (id : IdArg) : Z :=
  match id with
  | New => fresh (dom (db_table db))
  | Pk k => k
  end.

(** Every submitted field stored as it was submitted, the slug
    apart. *)
Definition stored_as_submitted (row : Podcast.t)
    (title subtitle author_name author_email description : val)
    (copyright category itunes_url feedburner_url : val)
    (flag : option bool) : Prop :=
  Podcast.title row = title /\
  Podcast.subtitle row = subtitle /\
  Podcast.author row =
    Some {| Author.name := author_name; Author.email := author_email |} /\
  Podcast.description row = description /\
  Podcast.copyright row = copyright /\
  Podcast.category row = category /\
  Podcast.itunes_url row = itunes_url /\
  Podcast.feedburner_url row = feedburner_url /\
  Podcast.explicit row = flag.

End Actions.

End Podcastadmin.

(** * Sample data *)

Module Sample.
Import FTPStorageForm.

(** An FTP engine configured earlier. *)
Definition engine : Engine :=
  {| _data := {[ "path" := VStr "/media";
                 "ftp_server" := VStr "ftp.example.com" ]} |}.

(** A submission that clears the path and sets the RTMP server. *)
Definition specifics : gmap string val :=
  {[ "path" := VStr ""; "rtmp_server_uri" := VStr "rtmp://example.com/" ]}.

(** A form value in which the user already typed a path. *)
Definition value : gmap string val :=
  {[ "general" := VDict {[ "display_name" := VStr "FTP" ]};
     "specifics" := VDict {[ "path" := VStr "/typed" ]} ]}.

(** A form value with nothing under ['specifics'] yet. *)
Definition blank_value : gmap string val :=
  {[ "general" := VDict {[ "display_name" := VStr "FTP" ]} ]}.

(** A parent [display] that fills in the engine's display name and
    renders nothing. *)
Definition StorageForm_display (e : Engine) : M (gmap string val) unit :=
  modify (fun value =>
    <["general" := VDict {[ "display_name" := VStr "FTP" ]}]> value).
End Sample.

(** ** A sample installation *)

Module SampleSite.
Import Podcastadmin.

(** The extension of a file name, from its last dot on. *)
Fixpoint ext_from (s : string) : option string :=
  match s with
  | EmptyString => None
  | String c rest =>
      match ext_from rest with
      | Some e => Some e
      | None => if Ascii.eqb c (Ascii.ascii_of_nat 46) then Some s else None
      end
  end.

(** An installation whose imaging library knows JPEG files by their
    first two bytes, stores thumbnails under [/images/podcasts/],
    leaves slugs as submitted and wraps descriptions in a
    paragraph. *)
#[local] Instance externals : Externals := {|
  Image := list Byte.byte;
  Image_open bytes :=
    match bytes with
    | Byte.xff :: Byte.xd8 :: _ => Ret bytes
    | _ => Raise (IOError "cannot identify image file")
    end;
  Image_encode img path := Ret img;
  resize_thumb img xy := Ret img;
  thumb_path p key ext :=
    "/images/podcasts/" +:+ key +:+ "." +:+ default "jpg" ext;
  thumb_sizes := {[ "podcasts" := [("s", (128, 72)); ("l", (320, 180))] ]};
  _thumb_dir := "podcasts";
  writable path := true;
  splitext_ext name := default "" (ext_from name);
  lower s := s;
  best_json_content_type := "application/json";
  get_available_slug t slug p := slug;
  clean_admin_xhtml text :=
    match text with
    | VStr s => VStr ("<p>" +:+ s +:+ "</p>")
    | _ => VStr ""
    end;
  url_for action := "/admin/podcasts/" +:+ action;
  stub_slug := VStr "stub";
  stub_title := VStr "(Stub)";
  stub_author := {| Author.name := VStr "Admin";
                    Author.email := VStr "admin@example.com" |};
|}.

(** One podcast, under key 7. *)
Definition weekly : Podcast.t :=
  {| Podcast.id := Some 7;
     Podcast.slug := VStr "weekly";
     Podcast.title := VStr "Weekly";
     Podcast.subtitle := VNone;
     Podcast.author := Some {| Author.name := VStr "Ann";
                               Author.email := VStr "ann@example.com" |};
     Podcast.description := VStr "<p>Every week.</p>";
     Podcast.copyright := VNone;
     Podcast.category := VStr "Arts";
     Podcast.itunes_url := VNone;
     Podcast.feedburner_url := VNone;
     Podcast.explicit := Some false |}.

Definition db : Database :=
  {| db_table := {[ 7 := weekly ]}; db_files := ∅ |}.

(** An upload that is a JPEG file, one that is text, and a JPEG file
    that came without a file name. *)
Definition jpeg : FieldStorage :=
  {| filename := VStr "cover.jpg";
     file := [Byte.xff; Byte.xd8; Byte.xff; Byte.xe0] |}.
Definition text : FieldStorage :=
  {| filename := VStr "notes.txt"; file := [Byte.x68; Byte.x69] |}.
Definition unnamed : FieldStorage :=
  {| filename := VNone;
     file := [Byte.xff; Byte.xd8; Byte.xff; Byte.xe0] |}.

(** The answer to a text file uploaded as the thumbnail of a new
    podcast. *)
Definition refusal : gmap string json :=
  {[ "success" := JBool false;
     "message" := JStr "Unsupported image type";
     "id" := JNull ]}.

(** The details of a submitted podcast form. *)
Definition details : gmap string val :=
  {[ "explicit" := VStr "yes";
     "category" := VStr "Arts";
     "copyright" := VStr "2010";
     "itunes_url" := VNone;
     "feedburner_url" := VNone ]}.

(** The row that submitting a podcast "News" with the description
    "Hello" and these details leaves in the table. *)
Definition news : Podcast.t :=
  {| Podcast.id := Some 8;
     Podcast.slug := VStr "news";
     Podcast.title := VStr "News";
     Podcast.subtitle := VNone;
     Podcast.author := Some {| Author.name := VStr "Ann";
                               Author.email := VStr "ann@example.com" |};
     Podcast.description := VStr "<p>Hello</p>";
     Podcast.copyright := VStr "2010";
     Podcast.category := VStr "Arts";
     Podcast.itunes_url := VNone;
     Podcast.feedburner_url := VNone;
     Podcast.explicit := Some true |}.
End SampleSite.

(** ** Other installations *)

Module SampleSites.
Import Podcastadmin.

(** The sample installation with other thumbnail sizes and another
    rule for which paths can be written. *)
Definition site (sizes : gmap string (list (string * (Z * Z))))
    (can_write : string -> bool) : Externals :=
  {| Image := list Byte.byte;
     Image_open := Image_open (Externals := SampleSite.externals);
     Image_encode := Image_encode (Externals := SampleSite.externals);
     resize_thumb := resize_thumb (Externals := SampleSite.externals);
     thumb_path := thumb_path (Externals := SampleSite.externals);
     thumb_sizes := sizes;
     _thumb_dir := "podcasts";
     writable := can_write;
     splitext_ext := splitext_ext (Externals := SampleSite.externals);
     lower := lower (Externals := SampleSite.externals);
     best_json_content_type := "application/json";
     get_available_slug :=
       get_available_slug (Externals := SampleSite.externals);
     clean_admin_xhtml := clean_admin_xhtml (Externals := SampleSite.externals);
     url_for := url_for (Externals := SampleSite.externals);
     stub_slug := VStr "stub";
     stub_title := VStr "(Stub)";
     stub_author := {| Author.name := VStr "Admin";
                       Author.email := VStr "admin@example.com" |} |}.

(** An installation without configured thumbnail sizes. *)
Definition unconfigured : Externals := site ∅ (fun _ => true).

(** An installation whose image directory is read-only. *)
Definition read_only : Externals :=
  site {[ "podcasts" := [("s", (128, 72)); ("l", (320, 180))] ]}
    (fun _ => false).

(** An FTP engine as [save_engine_params] leaves one. *)
Definition stored_engine : FTPStorageForm.Engine :=
  {| FTPStorageForm._data :=
       {[ "path" := VStr "/media"; "rtmp_server_uri" := VNone ]} |}.

(** Submitted details that lack the copyright. *)
Definition short_details : gmap string val :=
  {[ "explicit" := VStr "yes"; "category" := VStr "Arts" ]}.
End SampleSites.

(** * Properties of the FTP storage form *)

Section FTPStorageFormSpec.
Import FTPStorageForm.
Context {Html : Type}.
Variable StorageForm_display : Engine -> M (gmap string val) Html.

(** What [setdefault] leaves under key [k]. *)
Lemma lookup_setdefault (d : gmap string val) k dflt k' :
  (setdefault d k dflt).1 !! k' =
    match d !! k' with
    | Some v => Some v
    | None => if decide (k = k') then Some dflt else None
    end.
Proof.
  unfold setdefault. destruct (d !! k) as [v|] eqn:Hk; simpl.
  - destruct (d !! k') eqn:Hk'; [done|].
    case_decide; [congruence|done].
  - rewrite lookup_insert. case_decide; subst.
    + by rewrite Hk.
    + by destruct (d !! k').
Qed.

(** The state [display_defaults] leaves behind. *)
Lemma display_defaults_run engine (value d : gmap string val) :
  specifics_of value d ->
  display_defaults (Some engine) value =
    (Ret engine,
     <["specifics" :=
         VDict (setdefault
                  (setdefault d "path"
                     (dict_get (_data engine) "path" VNone)).1
                  "rtmp_server_uri"
                  (dict_get (_data engine) "rtmp_server_uri" VNone)).1]>
       value).
Proof.
  intros [Hd | [Hd ->]];
    unfold display_defaults, bind, ret, get, put, setdefault at 1;
    rewrite Hd; simpl; [done|].
  by rewrite insert_insert_eq.
Qed.

Lemma display_specifics engine (value d : gmap string val) :
  keeps_specifics StorageForm_display ->
  specifics_of value d ->
  (display StorageForm_display (Some engine) value).2 !! "specifics" =
    Some (VDict (setdefault
                   (setdefault d "path"
                      (dict_get (_data engine) "path" VNone)).1
                   "rtmp_server_uri"
                   (dict_get (_data engine) "rtmp_server_uri" VNone)).1).
Proof.
  intros Hparent Hd. unfold display, bind.
  rewrite (display_defaults_run _ _ _ Hd), Hparent.
  apply lookup_insert_eq.
Qed.

(** Keys other than the two stay as they are, whatever the call does. *)
Lemma save_engine_params_frame specifics engine k :
  k ≠ "path" -> k ≠ "rtmp_server_uri" ->
  _data (save_engine_params specifics engine).2 !! k = _data engine !! k.
Proof.
  intros Hp Hr.
  unfold save_engine_params, specifics_getitem, getitem, data_setitem,
    bind, modify, raise, ret.
  destruct specifics as [d|]; [|done].
  destruct (d !! "path"); [|done].
  destruct (d !! "rtmp_server_uri"); simpl.
  - by rewrite !lookup_insert_ne.
  - by rewrite lookup_insert_ne.
Qed.

Lemma save_engine_params_run (specifics : gmap string val) engine p r :
  specifics !! "path" = Some p ->
  specifics !! "rtmp_server_uri" = Some r ->
  save_engine_params (Some specifics) engine =
    (Ret tt,
     {| _data := <["rtmp_server_uri" := py_or r VNone]>
                   (<["path" := py_or p VNone]> (_data engine)) |}).
Proof.
  intros Hp Hr.
  unfold save_engine_params, specifics_getitem, getitem, data_setitem,
    bind, modify, raise, ret.
  by rewrite Hp, Hr.
Qed.

(** C6: when [specifics] holds values for ['path'] and
    ['rtmp_server_uri'], [save_engine_params(engine, specifics)]
    returns having written exactly these two keys of [engine._data]:
    each holds the submitted value, or [None] when that value is
    falsy; every other key of [engine._data] keeps what it had. *)
Theorem save_engine_params_writes
    (engine : Engine) (specifics : gmap string val) (p r : val) :
  specifics !! "path" = Some p ->
  specifics !! "rtmp_server_uri" = Some r ->
  exists engine',
    save_engine_params (Some specifics) engine = (Ret tt, engine') /\
    _data engine' !! "path" = Some (if truthy p then p else VNone) /\
    _data engine' !! "rtmp_server_uri" = Some (if truthy r then r else VNone) /\
    forall k, k ≠ "path" -> k ≠ "rtmp_server_uri" ->
      _data engine' !! k = _data engine !! k.
Proof.
  intros Hp Hr. eexists. split; [by apply save_engine_params_run|].
  simpl. rewrite lookup_insert_ne by done. rewrite !lookup_insert_eq.
  repeat split; [done..|].
  intros k Hkp Hkr. by rewrite !lookup_insert_ne.
Qed.

(** C7: after [save_engine_params(engine, specifics)] has stored the
    two settings, [display(value, engine=engine)] on a [value] whose
    ['specifics'] entry has neither key puts under
    [value['specifics']['path']] and
    [value['specifics']['rtmp_server_uri']] exactly what
    [engine._data] now holds for them. *)
Theorem display_after_save_engine_params
    (engine : Engine) (specifics value d : gmap string val) (p r : val) :
  keeps_specifics StorageForm_display ->
  specifics !! "path" = Some p ->
  specifics !! "rtmp_server_uri" = Some r ->
  specifics_of value d ->
  d !! "path" = None ->
  d !! "rtmp_server_uri" = None ->
  exists engine' d',
    save_engine_params (Some specifics) engine = (Ret tt, engine') /\
    (display StorageForm_display (Some engine') value).2 !! "specifics"
      = Some (VDict d') /\
    d' !! "path" = _data engine' !! "path" /\
    d' !! "rtmp_server_uri" = _data engine' !! "rtmp_server_uri" /\
    _data engine' !! "path" = Some (py_or p VNone) /\
    _data engine' !! "rtmp_server_uri" = Some (py_or r VNone).
Proof.
  intros Hparent Hp Hr Hd Hdp Hdr. eexists _, _.
  split; [by apply save_engine_params_run|].
  split; [by apply display_specifics|].
  rewrite !lookup_setdefault, Hdp, Hdr. unfold dict_get. simpl.
  rewrite lookup_insert_ne by done. rewrite !lookup_insert_eq. simpl.
  repeat case_decide; done.
Qed.

(** C10: [display] never overwrites what the caller's
    [value['specifics']] already holds: after the call every key that
    was present has the value it had, ['path'] and
    ['rtmp_server_uri'] are filled from [engine._data] (with [None]
    for a missing setting) only where they were absent, and no other
    key appears. *)
Theorem display_keeps_present
    (engine : Engine) (value specifics : gmap string val) :
  keeps_specifics StorageForm_display ->
  value !! "specifics" = Some (VDict specifics) ->
  exists specifics',
    (display StorageForm_display (Some engine) value).2 !! "specifics"
      = Some (VDict specifics') /\
    forall k,
      specifics' !! k =
        match specifics !! k with
        | Some v => Some v
        | None =>
            if decide (k = "path" \/ k = "rtmp_server_uri")
            then Some (dict_get (_data engine) k VNone)
            else None
        end.
Proof.
  intros Hparent Hs. eexists. split.
  - apply display_specifics; [done|]. by left.
  - intros k. rewrite !lookup_setdefault.
    destruct (specifics !! k); [done|].
    destruct (decide ("path" = k)) as [<-|Hp]; [done|].
    destruct (decide ("rtmp_server_uri" = k)) as [<-|Hr]; [done|].
    rewrite decide_False; [done|]. intros [->| ->]; done.
Qed.

(** ** Errors, repetition and the way back *)

(** X1: without [specifics], or with [specifics] that have no
    ['path'], [save_engine_params] raises ([TypeError], [KeyError] on
    ['path']) before it writes anything: the engine is as it was. *)
Theorem save_engine_params_rejects
    (specifics : option (gmap string val)) (engine : Engine) :
  match specifics with
  | None => True
  | Some d => d !! "path" = None
  end ->
  save_engine_params specifics engine =
    (Raise match specifics with
           | None => TypeError "'NoneType' object is unsubscriptable"
           | Some _ => KeyError "path"
           end,
     engine).
Proof.
  intros Hs. unfold save_engine_params, specifics_getitem, getitem, bind.
  destruct specifics as [d|]; [|done]. by rewrite Hs.
Qed.

(** X2: with a ['path'] and no ['rtmp_server_uri'],
    [save_engine_params] raises [KeyError] on ['rtmp_server_uri']
    after it has written ['path']: the engine is left half updated. *)
Theorem save_engine_params_partial
    (d : gmap string val) (engine : Engine) (p : val) :
  d !! "path" = Some p ->
  d !! "rtmp_server_uri" = None ->
  save_engine_params (Some d) engine =
    (Raise (KeyError "rtmp_server_uri"),
     {| _data := <["path" := py_or p VNone]> (_data engine) |}).
Proof.
  intros Hp Hr.
  unfold save_engine_params, specifics_getitem, getitem, data_setitem,
    bind, modify, raise, ret.
  by rewrite Hp, Hr.
Qed.

(** X3: [save_engine_params] is idempotent: a second call with the
    same [specifics] ends as the first did and leaves the engine the
    first call left, whether the calls return or raise. *)
Theorem save_engine_params_idempotent
    (specifics : option (gmap string val)) (engine : Engine) :
  save_engine_params specifics (save_engine_params specifics engine).2
  = save_engine_params specifics engine.
Proof.
  unfold save_engine_params, specifics_getitem, getitem, data_setitem,
    bind, modify, raise, ret.
  destruct specifics as [d|]; [|done].
  destruct (d !! "path") as [p|]; [|done].
  destruct (d !! "rtmp_server_uri") as [r|]; simpl.
  - do 2 f_equal. apply map_eq. intros k.
    rewrite !lookup_insert. by repeat case_decide.
  - by rewrite insert_insert_eq.
Qed.

(** X4: the last complete submission wins: after any earlier call, a
    call with [specifics] that hold both values leaves the engine that
    this call alone would have left. *)
Theorem save_engine_params_overrides
    (earlier : option (gmap string val)) (specifics : gmap string val)
    (engine : Engine) (p r : val) :
  specifics !! "path" = Some p ->
  specifics !! "rtmp_server_uri" = Some r ->
  save_engine_params (Some specifics)
    (save_engine_params earlier engine).2
  = save_engine_params (Some specifics) engine.
Proof.
  intros Hp Hr. rewrite !(save_engine_params_run specifics _ p r) by done.
  do 2 f_equal. apply map_eq. intros k.
  rewrite !lookup_insert. repeat case_decide; try done.
  apply save_engine_params_frame; congruence.
Qed.

Lemma display_defaults_not_dict engine (value : gmap string val) v :
  value !! "specifics" = Some v ->
  (forall d, v ≠ VDict d) ->
  exists msg,
    display_defaults (Some engine) value = (Raise (AttributeError msg), value).
Proof.
  intros Hv Hnd. unfold display_defaults, bind, get, put, raise, ret.
  unfold setdefault at 1. rewrite Hv.
  destruct v as [| | | |d]; try (by eexists). by destruct (Hnd d).
Qed.

(** X5: [display] raises without touching [value], and without
    calling the parent class, when the ['engine'] keyword is missing
    ([KeyError]) and when [value['specifics']] is there and is not a
    dictionary ([AttributeError]). *)
Theorem display_refuses
    (engine_kw : option Engine) (value : gmap string val) :
  engine_kw = None \/
  (exists v, value !! "specifics" = Some v /\ forall d, v ≠ VDict d) ->
  exists e,
    display StorageForm_display engine_kw value = (Raise e, value) /\
    (engine_kw = None -> e = KeyError "engine") /\
    (is_Some engine_kw -> exists msg, e = AttributeError msg).
Proof.
  intros Hbad. unfold display, bind.
  destruct engine_kw as [engine|].
  - destruct Hbad as [|(v & Hv & Hnd)]; [done|].
    destruct (display_defaults_not_dict engine value v Hv Hnd) as [msg ->].
    eexists. split; [reflexivity|]. split; [done|]. intros _. by eexists.
  - eexists. split; [reflexivity|]. split; [done|]. by intros [? ?].
Qed.

(** X6: whatever [display] does before it calls the parent class, it
    leaves every entry of [value] other than ['specifics'] as the
    caller passed it. *)
Theorem display_defaults_frame
    (engine_kw : option Engine) (value : gmap string val) (k : string) :
  k ≠ "specifics" ->
  (display_defaults engine_kw value).2 !! k = value !! k.
Proof.
  intros Hk. unfold display_defaults, bind, get, put, raise, ret.
  destruct engine_kw as [engine|]; [|done].
  unfold setdefault at 1.
  destruct (value !! "specifics") as [v|] eqn:Hv.
  - destruct v; simpl; try done. by rewrite lookup_insert_ne.
  - simpl. by rewrite !lookup_insert_ne.
Qed.

(** X7: filling in the defaults is idempotent: on a [value] that
    [display] has prepared once, preparing it again with the same
    engine changes nothing. *)
Theorem display_defaults_idempotent
    (engine_kw : option Engine) (value : gmap string val) :
  display_defaults engine_kw (display_defaults engine_kw value).2
  = display_defaults engine_kw value.
Proof.
  destruct engine_kw as [engine|]; [|done].
  assert (forall d, specifics_of value d ->
            display_defaults (Some engine)
              (display_defaults (Some engine) value).2
            = display_defaults (Some engine) value) as Hdict.
  { intros d Hd. rewrite (display_defaults_run engine value d Hd). simpl.
    erewrite display_defaults_run by (left; apply lookup_insert_eq).
    f_equal. rewrite insert_insert_eq. do 2 f_equal.
    apply map_eq. intros k. rewrite !lookup_setdefault.
    destruct (d !! k); [done|]. by repeat case_decide. }
  destruct (value !! "specifics") as [v|] eqn:Hv.
  - assert ((exists d, v = VDict d) \/ forall d, v ≠ VDict d) as [[d ->]|Hnd]
      by (destruct v; eauto).
    + apply (Hdict d). by left.
    + destruct (display_defaults_not_dict engine value v Hv Hnd) as [msg Hrun].
      by rewrite Hrun; simpl; rewrite Hrun.
  - apply (Hdict ∅). by right.
Qed.

(** X8: the way back.  When the engine holds both settings and each
    is truthy or [None] (as [save_engine_params] stores them),
    displaying a [value] whose ['specifics'] have neither key and
    saving the displayed ['specifics'] returns and leaves the engine
    exactly as it was. *)
Theorem save_engine_params_after_display
    (engine : Engine) (value d : gmap string val) (p r : val) :
  keeps_specifics StorageForm_display ->
  specifics_of value d ->
  d !! "path" = None ->
  d !! "rtmp_server_uri" = None ->
  _data engine !! "path" = Some p ->
  _data engine !! "rtmp_server_uri" = Some r ->
  py_or p VNone = p ->
  py_or r VNone = r ->
  exists d',
    (display StorageForm_display (Some engine) value).2 !! "specifics"
      = Some (VDict d') /\
    save_engine_params (Some d') engine = (Ret tt, engine).
Proof.
  intros Hparent Hd Hdp Hdr Hp Hr Hpn Hrn. eexists.
  split; [by apply display_specifics|].
  rewrite (save_engine_params_run _ _ p r).
  - f_equal. destruct engine as [data]. simpl in *. f_equal.
    rewrite Hpn, Hrn. rewrite (insert_id data "path" p) by done.
    by apply insert_id.
  - rewrite !lookup_setdefault, Hdp. unfold dict_get. rewrite Hp.
    simpl. by repeat case_decide.
  - rewrite !lookup_setdefault, Hdr. unfold dict_get. rewrite Hr.
    simpl. by repeat case_decide.
Qed.

End FTPStorageFormSpec.

(** * Properties of the podcast admin controller *)

Section PodcastadminSpec.
Import Podcastadmin.
Context `{Externals}.

(** C8: the explicit-content flag and the form's choice are each
    other's inverse: showing a stored flag ([True], [False] or
    [None]) and saving the choice shown gives the flag back, and
    saving one of the choices ['yes'], ['clean'], ['no'] and showing
    the stored flag gives the choice back. *)
Theorem explicit_display_parse_inverse :
  (forall flag : option bool,
      explicit_parse (VStr (explicit_display flag)) = Ret flag) /\
  (forall choice : string,
      choice = "yes" \/ choice = "clean" \/ choice = "no" ->
      exists flag,
        explicit_parse (VStr choice) = Ret flag /\
        explicit_display flag = choice).
Proof.
  split.
  - by intros [[]|].
  - intros choice [->|[->| ->]]; eexists; (split; [reflexivity|done]).
Qed.

(** ** Running the pieces of an action *)

Lemma bind_ret {S A B} (m : M S A) (k : A -> M S B) s a s' :
  m s = (Ret a, s') -> bind m k s = k a s'.
Proof. unfold bind. by intros ->. Qed.

Section Maintains.
Variable R : World -> World -> Prop.
Context `{!PreOrder R}.

Lemma maintains_ret {A} (a : A) : maintains R (ret a).
Proof. intros w. reflexivity. Qed.

Lemma maintains_raise {A} e : maintains R (raise e : M World A).
Proof. intros w. reflexivity. Qed.

Lemma maintains_lift {A} (o : outcome A) : maintains R (lift o).
Proof. intros w. reflexivity. Qed.

Lemma maintains_get : maintains R get.
Proof. intros w. reflexivity. Qed.

Lemma maintains_bind {A B} (m : M World A) (k : A -> M World B) :
  maintains R m -> (forall a, maintains R (k a)) -> maintains R (bind m k).
Proof.
  intros Hm Hk w. unfold bind. specialize (Hm w).
  destruct (m w) as [[a|e] w']; simpl in *; [|done].
  etrans; [exact Hm|apply Hk].
Qed.

Lemma maintains_for_each {A} (xs : list A) (body : A -> M World unit) :
  (forall x, maintains R (body x)) -> maintains R (for_each xs body).
Proof.
  intros Hbody. induction xs as [|x xs IH]; simpl.
  - apply maintains_ret.
  - apply maintains_bind; [apply Hbody|]. intros _. apply IH.
Qed.

Lemma maintains_getobj l :  maintains R (getobj l).
Proof.
  apply maintains_bind; [apply maintains_get|]. intros w.
  destruct (heap w !! l); [apply maintains_ret|apply maintains_raise].
Qed.
End Maintains.

#[local] Instance same_session_preorder : PreOrder same_session.
Proof.
  split.
  - by intros w.
  - intros w1 w2 w3 (?&?&?&?&?) (?&?&?&?&?). unfold same_session.
    repeat split; congruence.
Qed.

#[local] Instance same_objects_preorder : PreOrder same_objects.
Proof.
  split.
  - by intros w.
  - intros w1 w2 w3 ??. unfold same_objects in *. congruence.
Qed.

Lemma write_file_same_session path bytes :
  maintains same_session (write_file path bytes).
Proof.
  intros w. unfold write_file. destruct (writable path); by simpl.
Qed.

Lemma Image_save_same_session img path :
  maintains same_session (Image_save img path).
Proof.
  apply maintains_bind; [apply _|apply maintains_lift, _|].
  intros bytes. apply write_file_same_session.
Qed.

(** ** The [try] block of [save_thumb] *)

Lemma process_thumb_eq id podcast thumb :
  process_thumb id podcast thumb =
    (img <- lift (Image_open (file thumb)) ;;
     (if is_new id then DBSession_add podcast ;;; DBSession_flush
      else ret tt) ;;;
     store_thumbs podcast img thumb).
Proof. reflexivity. Qed.

Lemma store_thumbs_same_session podcast img thumb :
  maintains same_session (store_thumbs podcast img thumb).
Proof.
  unfold store_thumbs.
  apply maintains_bind; [apply _| |intros sizes].
  { unfold podcast_thumb_sizes.
    destruct (thumb_sizes !! _thumb_dir);
      [apply maintains_ret, _|apply maintains_raise, _]. }
  apply maintains_bind; [apply _| |intros _].
  { apply maintains_for_each; [apply _|]. intros [key xy].
    apply maintains_bind; [apply _|apply maintains_getobj, _|intros p].
    apply maintains_bind; [apply _|apply maintains_lift, _|intros thumb_img].
    apply Image_save_same_session. }
  apply maintains_bind; [apply _| |intros backup_type].
  { unfold backup_type_of. destruct (filename thumb);
      try (apply maintains_raise, _).
    destruct (lower _); apply maintains_ret, _. }
  apply maintains_bind; [apply _|apply maintains_getobj, _|intros p].
  apply maintains_bind; [apply _|apply write_file_same_session|intros _].
  apply maintains_ret, _.
Qed.

Lemma flush_one_length w l : length (heap (flush_one w l)) = length (heap w).
Proof.
  unfold flush_one. destruct (heap w !! l) as [p|]; [|done].
  destruct (Podcast.id p); [by destruct (mem l (deleted w))|].
  simpl. apply length_insert.
Qed.

Lemma DBSession_flush_same_objects : maintains same_objects DBSession_flush.
Proof.
  intros w. unfold same_objects. simpl.
  generalize (attached w) as ls. intros ls. revert w.
  induction ls as [|l ls IH]; intros w; simpl; [done|].
  by rewrite IH, flush_one_length.
Qed.

Lemma DBSession_add_same_objects l : maintains same_objects (DBSession_add l).
Proof.
  intros w. unfold same_objects. simpl. by destruct (mem l (attached w)).
Qed.

Lemma process_thumb_same_objects id podcast thumb :
  maintains same_objects (process_thumb id podcast thumb).
Proof.
  rewrite process_thumb_eq.
  apply maintains_bind; [apply _|apply maintains_lift, _|intros img].
  apply maintains_bind; [apply _| |intros _].
  - destruct (is_new id); [|apply maintains_ret, _].
    apply maintains_bind; [apply _|apply DBSession_add_same_objects|].
    intros _. apply DBSession_flush_same_objects.
  - intros w.
    destruct (store_thumbs_same_session podcast img thumb w) as [Hh _].
    unfold same_objects. by rewrite Hh.
Qed.

(** Whatever the [try] block does, [save_thumb] answers with a body
    built from the outcome and the identifier the object has by
    then. *)
Lemma save_thumb_body db id thumb podcast w1 r w2 :
  load_podcast id (new_request db) = (Ret podcast, w1) ->
  (podcast < length (heap w1))%nat ->
  try_except (process_thumb id podcast thumb) thumb_error w1 = (r, w2) ->
  exists success message p,
    r = Ret (success, message) /\
    heap w2 !! podcast = Some p /\
    save_thumb id thumb (new_request db) =
      (Ret {[ "success" := JBool success;
              "message" := json_of_message message;
              "id" := json_of_id (Podcast.id p) ]},
       set_headers (<["Content-Type" := best_json_content_type]> (headers w2))
         w2).
Proof.
  intros Hload Hlt Htry.
  assert (length (heap w2) = length (heap w1)) as Hlen.
  { pose proof (process_thumb_same_objects id podcast thumb w1) as Hp.
    unfold try_except, thumb_error in Htry. unfold same_objects in Hp.
    destruct (process_thumb id podcast thumb w1) as [[a|e] w']; simpl in *.
    - by inversion Htry; subst.
    - destruct (is_IOError e); inversion Htry; by subst. }
  destruct (lookup_lt_is_Some_2 (heap w2) podcast) as [p Hp]; [lia|].
  assert (exists sm, r = Ret sm) as [[success msg] ->].
  { unfold try_except, thumb_error in Htry.
    destruct (process_thumb id podcast thumb w1) as [[a|e] w']; simpl in *.
    - inversion Htry; eauto.
    - destruct (is_IOError e); inversion Htry; eauto. }
  exists success, msg, p. split; [done|]. split; [done|].
  unfold save_thumb. fold (load_podcast id).
  rewrite (bind_ret _ _ _ _ _ Hload), (bind_ret _ _ _ _ _ Htry).
  unfold getobj. unfold bind, modify, get, ret, set_headers at 1.
  cbn [heap]. by rewrite Hp.
Qed.

Lemma load_podcast_new db :
  load_podcast New (new_request db) =
    (Ret 0%nat, set_heap [podcast_stub] (new_request db)).
Proof. reflexivity. Qed.

Lemma fetch_row_pk db k row :
  db_table db !! k = Some row ->
  fetch_row (Pk k) (new_request db) =
    (Ret 0%nat,
     set_attached [0%nat]
       (set_heap [Podcast.set_id (Some k) row] (new_request db))).
Proof.
  intros Hrow. unfold fetch_row, bind, get. simpl. by rewrite Hrow.
Qed.

Lemma load_podcast_allocated db id podcast w1 :
  load_podcast id (new_request db) = (Ret podcast, w1) ->
  (podcast < length (heap w1))%nat.
Proof.
  destruct id as [|k].
  - rewrite load_podcast_new. intros [= <- <-]. simpl. lia.
  - unfold load_podcast, fetch_row, bind, get. simpl.
    destruct (db_table db !! k); [|done].
    intros [= <- <-]. simpl. lia.
Qed.

(** The [try] block returns in one way only. *)
Lemma store_thumbs_returns podcast img thumb w a w' :
  store_thumbs podcast img thumb w = (Ret a, w') -> a = (true, None).
Proof.
  unfold store_thumbs, bind.
  destruct (podcast_thumb_sizes w) as [[sizes|?] ?]; [|done].
  destruct (for_each _ _ _) as [[[]|?] ?]; [|done].
  destruct (backup_type_of _ _) as [[?|?] ?]; [|done].
  destruct (getobj _ _) as [[?|?] ?]; [|done].
  destruct (write_file _ _ _) as [[[]|?] ?]; [|done].
  by intros [= <- <-].
Qed.

Lemma process_thumb_returns id podcast thumb w a w' :
  process_thumb id podcast thumb w = (Ret a, w') -> a = (true, None).
Proof.
  rewrite process_thumb_eq. unfold bind at 1 2, lift.
  destruct (Image_open (file thumb)); [|done].
  destruct (if is_new id then _ else _) as [[[]|?] ?]; [|done].
  apply store_thumbs_returns.
Qed.

(** An existing podcast goes through the [try] block untouched. *)
Lemma process_thumb_pk_same_session k podcast thumb :
  maintains same_session (process_thumb (Pk k) podcast thumb).
Proof.
  rewrite process_thumb_eq.
  apply maintains_bind; [apply _|apply maintains_lift, _|intros img].
  apply maintains_bind; [apply _|apply maintains_ret, _|intros _].
  apply store_thumbs_same_session.
Qed.

(** A new podcast whose image opens is added and flushed, which gives
    it a key. *)
Lemma process_thumb_new_opened db thumb img :
  Image_open (file thumb) = Ret img ->
  let k := fresh (dom (db_table db)) in
  let p := Podcast.set_id (Some k) podcast_stub in
  let w := set_heap [podcast_stub] (new_request db) in
  process_thumb New 0 thumb w =
    store_thumbs 0 img thumb
      (set_flushes 1
         (set_attached [0%nat]
            (set_table (<[k := p]> (db_table db)) (set_heap [p] w)))).
Proof.
  intros Himg. rewrite process_thumb_eq. unfold bind at 1 2, lift.
  by rewrite Himg.
Qed.

Lemma process_thumb_not_opened id podcast thumb e w :
  Image_open (file thumb) = Raise e ->
  process_thumb id podcast thumb w = (Raise e, w).
Proof.
  intros Himg. rewrite process_thumb_eq. unfold bind at 1, lift.
  by rewrite Himg.
Qed.

Lemma lookup_body_success (s : bool) (m i : json) :
  ({[ "success" := JBool s; "message" := m; "id" := i ]} : gmap string json)
    !! "success" = Some (JBool s).
Proof. apply lookup_insert_eq. Qed.

Lemma lookup_body_message (s : bool) (m i : json) :
  ({[ "success" := JBool s; "message" := m; "id" := i ]} : gmap string json)
    !! "message" = Some m.
Proof. rewrite lookup_insert_ne by done. apply lookup_insert_eq. Qed.

Lemma lookup_body_id (s : bool) (m i : json) :
  ({[ "success" := JBool s; "message" := m; "id" := i ]} : gmap string json)
    !! "id" = Some i.
Proof.
  rewrite !lookup_insert_ne by done. apply lookup_singleton_eq.
Qed.

Lemma dom_body (s : bool) (m i : json) :
  dom ({[ "success" := JBool s; "message" := m; "id" := i ]}
         : gmap string json)
  = ({[ "success"; "message"; "id" ]} : gset string).
Proof. rewrite !dom_insert_L, dom_singleton_L. set_solver. Qed.

(** What [save_thumb] answers when the [try] block raises [e]. *)
Lemma save_thumb_raised db id thumb podcast w1 e w2 :
  load_podcast id (new_request db) = (Ret podcast, w1) ->
  process_thumb id podcast thumb w1 = (Raise e, w2) ->
  exists body w3,
    save_thumb id thumb (new_request db) = (Ret body, w3) /\
    body !! "success" = Some (JBool false) /\
    body !! "message" =
      Some (JStr (if is_IOError e then "Unsupported image type"
                  else message e)).
Proof.
  intros Hload Hproc.
  assert (try_except (process_thumb id podcast thumb) thumb_error w1 =
            (Ret (false, Some (if is_IOError e
                               then "Unsupported image type"
                               else message e)), w2)) as Htry.
  { unfold try_except, thumb_error. rewrite Hproc.
    by destruct (is_IOError e). }
  pose proof (load_podcast_allocated _ _ _ _ Hload) as Hlt.
  destruct (save_thumb_body _ _ _ _ _ _ _ Hload Hlt Htry)
    as (success & msg & p & [= <- <-] & _ & ->).
  eexists _, _. split; [done|].
  by rewrite lookup_body_success, lookup_body_message.
Qed.

(** C1: when the [try] block of [save_thumb] raises an [IOError],
    the JSON body has [success] false and [message] equal to
    ['Unsupported image type']. *)
Theorem save_thumb_IOError db id thumb podcast w1 msg w2 :
  load_podcast id (new_request db) = (Ret podcast, w1) ->
  process_thumb id podcast thumb w1 = (Raise (IOError msg), w2) ->
  exists body w3,
    save_thumb id thumb (new_request db) = (Ret body, w3) /\
    body !! "success" = Some (JBool false) /\
    body !! "message" = Some (JStr "Unsupported image type").
Proof. intros Hload Hproc. by eapply save_thumb_raised in Hproc. Qed.

(** C3: when the [try] block of [save_thumb] raises an exception
    that is not an [IOError], the JSON body has [success] false and
    [message] equal to that exception's [message], as it is. *)
Theorem save_thumb_other_exception db id thumb podcast w1 e w2 :
  load_podcast id (new_request db) = (Ret podcast, w1) ->
  process_thumb id podcast thumb w1 = (Raise e, w2) ->
  is_IOError e = false ->
  exists body w3,
    save_thumb id thumb (new_request db) = (Ret body, w3) /\
    body !! "success" = Some (JBool false) /\
    body !! "message" = Some (JStr (message e)).
Proof.
  intros Hload Hproc He.
  eapply save_thumb_raised in Hproc; [|done]. by rewrite He in Hproc.
Qed.

(** C9: when [id] is ['new'] and [Image.open] raises, the stub is
    never added to the session and nothing is flushed, so the table
    has no new row, and the [id] of the JSON body is null. *)
Theorem save_thumb_new_not_opened db thumb e :
  Image_open (file thumb) = Raise e ->
  exists body w',
    save_thumb New thumb (new_request db) = (Ret body, w') /\
    attached w' = [] /\
    flushes w' = 0%nat /\
    table w' = db_table db /\
    body !! "id" = Some JNull.
Proof.
  intros Himg.
  set (w := set_heap [podcast_stub] (new_request db)).
  assert (try_except (process_thumb New 0 thumb) thumb_error w =
            ((thumb_error e w).1, w)) as Htry.
  { unfold try_except. rewrite (process_thumb_not_opened _ _ _ e) by done.
    unfold thumb_error. by destruct (is_IOError e). }
  assert (0 < length (heap w))%nat as Hlt by (simpl; lia).
  destruct (save_thumb_body _ _ _ _ _ _ _ (load_podcast_new db) Hlt Htry)
    as (success & msg & p & _ & Hp & ->).
  injection Hp as <-.
  eexists _, _. split; [done|]. by rewrite lookup_body_id.
Qed.

(** The answer of [save_thumb] in terms of the run of the [try]
    block. *)
Lemma save_thumb_answer db id thumb podcast w1 :
  load_podcast id (new_request db) = (Ret podcast, w1) ->
  let w2 := (process_thumb id podcast thumb w1).2 in
  exists success message p,
    heap w2 !! podcast = Some p /\
    save_thumb id thumb (new_request db) =
      (Ret {[ "success" := JBool success;
              "message" := json_of_message message;
              "id" := json_of_id (Podcast.id p) ]},
       set_headers (<["Content-Type" := best_json_content_type]> (headers w2))
         w2) /\
    (if success then message = None else is_Some message).
Proof.
  intros Hload w2.
  pose proof (load_podcast_allocated _ _ _ _ Hload) as Hlt.
  destruct (try_except (process_thumb id podcast thumb) thumb_error w1)
    as [r w2'] eqn:Htry.
  destruct (save_thumb_body _ _ _ _ _ _ _ Hload Hlt Htry)
    as (success & msg & p & -> & Hp & ->).
  assert (w2' = w2 /\ if success then msg = None else is_Some msg)
    as [-> Hmsg].
  { subst w2. unfold try_except, thumb_error in Htry.
    destruct (process_thumb id podcast thumb w1) as [[a|e] w'] eqn:Hproc.
    - apply process_thumb_returns in Hproc as ->. by inversion Htry.
    - destruct (is_IOError e); inversion Htry; by subst. }
  by exists success, msg, p.
Qed.

(** C2, amended: whenever the podcast exists, [save_thumb] answers
    with a JSON object of exactly the keys [success], [message] and
    [id]; [success] is a boolean; [message] is null when [success]
    is true and a string otherwise; [id] is the podcast's key for an
    existing podcast, the key just assigned for a new podcast whose
    image opened, and null for a new podcast whose image did not
    open. *)
Theorem save_thumb_response db id thumb :
  found db id ->
  exists body w' (success : bool),
    save_thumb id thumb (new_request db) = (Ret body, w') /\
    dom body = ({[ "success"; "message"; "id" ]} : gset string) /\
    body !! "success" = Some (JBool success) /\
    (if success then body !! "message" = Some JNull
     else exists s, body !! "message" = Some (JStr s)) /\
    match id with
    | Pk k => body !! "id" = Some (JInt k)
    | New =>
        match Image_open (file thumb) with
        | Ret _ =>
            exists k p, body !! "id" = Some (JInt k) /\
                        table w' !! k = Some p /\ Podcast.id p = Some k
        | Raise _ => body !! "id" = Some JNull
        end
    end.
Proof.
  intros Hfound. destruct id as [|k].
  - destruct (save_thumb_answer db New thumb _ _ (load_podcast_new db))
      as (success & msg & p & Hp & -> & Hmsg).
    set (w1 := set_heap _ _) in *.
    eexists _, _, success. split; [done|].
    rewrite dom_body, lookup_body_success, lookup_body_message,
      lookup_body_id.
    split; [done|]. split; [done|].
    split; [by destruct success, msg; naive_solver|].
    destruct (Image_open (file thumb)) as [img|e] eqn:Himg.
    + subst w1. rewrite (process_thumb_new_opened db thumb img Himg) in *.
      match type of Hp with
      | heap (store_thumbs _ _ _ ?w).2 !! _ = _ =>
          destruct (store_thumbs_same_session 0 img thumb w)
            as (Hh & _ & _ & Ht & _)
      end.
      rewrite Hh in Hp. injection Hp as <-.
      eexists _, _. split; [done|].
      unfold set_headers. cbn [table]. rewrite Ht.
      split; [apply lookup_insert_eq|done].
    + rewrite (process_thumb_not_opened _ _ _ e) in Hp by done.
      by injection Hp as <-.
  - destruct Hfound as [row Hrow].
    destruct (save_thumb_answer db (Pk k) thumb _ _ (fetch_row_pk db k row Hrow))
      as (success & msg & p & Hp & -> & Hmsg).
    set (w1 := set_attached _ _) in *.
    eexists _, _, success. split; [done|].
    rewrite dom_body, lookup_body_success, lookup_body_message,
      lookup_body_id.
    split; [done|]. split; [done|].
    split; [by destruct success, msg; naive_solver|].
    destruct (process_thumb_pk_same_session k 0%nat thumb w1) as (Hh & _).
    rewrite Hh in Hp. by injection Hp as <-.
Qed.

(** ** [save] *)

Lemma fetch_row_fetched db id p0 :
  fetched db id = Some p0 ->
  fetch_row id (new_request db) =
    (Ret 0%nat,
     set_attached (if is_new id then [] else [0%nat])
       (set_heap [p0] (new_request db))) /\
  Podcast.id p0 = match id with New => None | Pk k => Some k end.
Proof.
  destruct id as [|k]; simpl.
  - by intros [= <-].
  - destruct (db_table db !! k) as [row|] eqn:Hrow; [|done].
    intros [= <-]. split; [|done]. by apply fetch_row_pk.
Qed.

(** C5: when [delete] is truthy, [save] deletes the fetched row from
    the session and the table, redirects to [index], and assigns
    none of the podcast's attributes: the object is as it was
    fetched. *)
Theorem save_delete db k row
    slug title subtitle author_name author_email description details
    delete :
  db_table db !! k = Some row ->
  truthy delete = true ->
  exists w',
    save (Pk k) slug title subtitle author_name author_email description
      details delete (new_request db)
    = (Raise (HTTPFound "index" None), w') /\
    table w' = base.delete k (db_table db) /\
    attached w' = [] /\
    flushes w' = 1%nat /\
    heap w' = [Podcast.set_id (Some k) row].
Proof.
  intros Hrow Hdel. unfold save.
  rewrite (bind_ret _ _ _ _ _ (fetch_row_pk db k row Hrow)), Hdel.
  eexists. split; [reflexivity|]. done.
Qed.

(** *** Single statements on a world with one object *)

Lemma getobj_one p a d t n hs fs :
  getobj 0 (Build_World [p] a d t n hs fs)
  = (Ret p, Build_World [p] a d t n hs fs).
Proof. reflexivity. Qed.

Lemma setattr_one f p a d t n hs fs :
  setattr 0 f (Build_World [p] a d t n hs fs)
  = (Ret tt, Build_World [f p] a d t n hs fs).
Proof. reflexivity. Qed.

Lemma DBSession_add_fresh p d t n hs fs :
  DBSession_add 0 (Build_World [p] [] d t n hs fs)
  = (Ret tt, Build_World [p] [0%nat] d t n hs fs).
Proof. reflexivity. Qed.

Lemma DBSession_add_again p d t n hs fs :
  DBSession_add 0 (Build_World [p] [0%nat] d t n hs fs)
  = (Ret tt, Build_World [p] [0%nat] d t n hs fs).
Proof. reflexivity. Qed.

Lemma DBSession_flush_update p k t n hs fs :
  Podcast.id p = Some k ->
  DBSession_flush (Build_World [p] [0%nat] [] t n hs fs)
  = (Ret tt, Build_World [p] [0%nat] [] (<[k := p]> t) (S n) hs fs).
Proof.
  intros Hk. unfold DBSession_flush, modify. simpl.
  unfold flush_one. simpl. by rewrite Hk.
Qed.

Lemma DBSession_flush_insert p t n hs fs :
  Podcast.id p = None ->
  let k := fresh (dom t) in
  let p' := Podcast.set_id (Some k) p in
  DBSession_flush (Build_World [p] [0%nat] [] t n hs fs)
  = (Ret tt, Build_World [p'] [0%nat] [] (<[k := p']> t) (S n) hs fs).
Proof.
  intros Hk. unfold DBSession_flush, modify. simpl.
  unfold flush_one. simpl. by rewrite Hk.
Qed.

Lemma fetch_row_one db id p0 :
  fetched db id = Some p0 ->
  fetch_row id (new_request db)
  = (Ret 0%nat,
     Build_World [p0] (if is_new id then [] else [0%nat]) []
       (db_table db) 0 ∅ (db_files db)).
Proof. intros Hfetch. by apply fetch_row_fetched. Qed.

(** One statement of an action, run on such a world. *)
Ltac step :=
  first
    [ rewrite (bind_ret _ _ _ _ _ (setattr_one _ _ _ _ _ _ _ _))
    | rewrite (bind_ret _ _ _ _ _ (getobj_one _ _ _ _ _ _ _))
    | rewrite (bind_ret _ _ _ _ _ (DBSession_add_fresh _ _ _ _ _ _))
    | rewrite (bind_ret _ _ _ _ _ (DBSession_add_again _ _ _ _ _ _))
    | erewrite bind_ret by (apply DBSession_flush_update; reflexivity)
    | erewrite bind_ret by (apply DBSession_flush_insert; reflexivity)
    | erewrite bind_ret by reflexivity ].

(** C4, amended: when [delete] is unset and the submission carries
    its five [details], [save] flushes and redirects to [edit] with
    the podcast's key, and the row under that key holds the
    submitted title, subtitle, author name and email, category,
    copyright, iTunes and Feedburner URLs, the flag the submitted
    explicit choice stands for, the slug [get_available_slug] makes
    of the submitted one, and as description what
    [clean_admin_xhtml] makes of the submitted one. *)
Theorem save_persists db id p0
    slug title subtitle author_name author_email description details
    delete copyright category itunes_url feedburner_url choice flag :
  fetched db id = Some p0 ->
  truthy delete = false ->
  details !! "copyright" = Some copyright ->
  details !! "category" = Some category ->
  details !! "itunes_url" = Some itunes_url ->
  details !! "feedburner_url" = Some feedburner_url ->
  details !! "explicit" = Some choice ->
  explicit_parse choice = Ret flag ->
  exists w',
    save id slug title subtitle author_name author_email description
      details delete (new_request db)
    = (Raise (HTTPFound "edit" (Some (key_of db id))), w') /\
    flushes w' = 1%nat /\
    table w' !! key_of db id =
      Some {| Podcast.id := Some (key_of db id);
              Podcast.slug := get_available_slug (db_table db) slug p0;
              Podcast.title := title;
              Podcast.subtitle := subtitle;
              Podcast.author :=
                Some {| Author.name := author_name;
                        Author.email := author_email |};
              Podcast.description := clean_admin_xhtml description;
              Podcast.copyright := copyright;
              Podcast.category := category;
              Podcast.itunes_url := itunes_url;
              Podcast.feedburner_url := feedburner_url;
              Podcast.explicit := flag |}.
Proof.
  intros Hfetch Hdel Hco Hca Hit Hfe Hex Hflag.
  unfold save.
  rewrite (bind_ret _ _ _ _ _ (fetch_row_one db id p0 Hfetch)), Hdel.
  do 8 step.
  unfold getitem. rewrite Hco. do 2 step.
  rewrite Hca. do 2 step.
  rewrite Hit. do 2 step.
  rewrite Hfe. do 2 step.
  rewrite Hex. step. rewrite Hflag. do 2 step.
  destruct id as [|k]; simpl in Hfetch; cbn [is_new].
  - injection Hfetch as <-. do 3 step.
    eexists. split; [reflexivity|]. split; [reflexivity|].
    apply lookup_insert_eq.
  - destruct (db_table db !! k) as [row|]; [|done].
    injection Hfetch as <-. do 3 step.
    eexists. split; [reflexivity|]. split; [reflexivity|].
    apply lookup_insert_eq.
Qed.
(** ** More on [save] and [edit] *)

Lemma bind_raised {S A B} (m : M S A) (k : A -> M S B) s e s' :
  m s = (Raise e, s') -> bind m k s = (Raise e, s').
Proof. unfold bind. by intros ->. Qed.

Lemma fetch_row_missing db k :
  db_table db !! k = None ->
  fetch_row (Pk k) (new_request db) = (Raise HTTPNotFound, new_request db).
Proof.
  intros Hrow. unfold fetch_row, bind, get. simpl. by rewrite Hrow.
Qed.

(** The world a completed [save] leaves. *)
Lemma save_run db id p0
    slug title subtitle author_name author_email description details
    delete copyright category itunes_url feedburner_url choice flag :
  fetched db id = Some p0 ->
  truthy delete = false ->
  details !! "copyright" = Some copyright ->
  details !! "category" = Some category ->
  details !! "itunes_url" = Some itunes_url ->
  details !! "feedburner_url" = Some feedburner_url ->
  details !! "explicit" = Some choice ->
  explicit_parse choice = Ret flag ->
  let row :=
    {| Podcast.id := Some (key_of db id);
       Podcast.slug := get_available_slug (db_table db) slug p0;
       Podcast.title := title;
       Podcast.subtitle := subtitle;
       Podcast.author :=
         Some {| Author.name := author_name; Author.email := author_email |};
       Podcast.description := clean_admin_xhtml description;
       Podcast.copyright := copyright;
       Podcast.category := category;
       Podcast.itunes_url := itunes_url;
       Podcast.feedburner_url := feedburner_url;
       Podcast.explicit := flag |} in
  save id slug title subtitle author_name author_email description
    details delete (new_request db)
  = (Raise (HTTPFound "edit" (Some (key_of db id))),
     Build_World [row] [0%nat] [] (<[key_of db id := row]> (db_table db))
       1 ∅ (db_files db)).
Proof.
  intros Hfetch Hdel Hco Hca Hit Hfe Hex Hflag row. subst row.
  unfold save.
  rewrite (bind_ret _ _ _ _ _ (fetch_row_one db id p0 Hfetch)), Hdel.
  do 8 step.
  unfold getitem. rewrite Hco. do 2 step.
  rewrite Hca. do 2 step.
  rewrite Hit. do 2 step.
  rewrite Hfe. do 2 step.
  rewrite Hex. step. rewrite Hflag. do 2 step.
  destruct id as [|k]; simpl in Hfetch; cbn [is_new].
  - injection Hfetch as <-. do 3 step. reflexivity.
  - destruct (db_table db !! k) as [row|]; [|done].
    injection Hfetch as <-. do 3 step. reflexivity.
Qed.

(** X9: a completed [save] writes one row only: every other row of
    the table is as it was, a new podcast takes a key that no row had,
    and no file is touched. *)
Theorem save_keeps_other_rows db id p0
    slug title subtitle author_name author_email description details
    delete copyright category itunes_url feedburner_url choice flag :
  fetched db id = Some p0 ->
  truthy delete = false ->
  details !! "copyright" = Some copyright ->
  details !! "category" = Some category ->
  details !! "itunes_url" = Some itunes_url ->
  details !! "feedburner_url" = Some feedburner_url ->
  details !! "explicit" = Some choice ->
  explicit_parse choice = Ret flag ->
  let w' :=
    (save id slug title subtitle author_name author_email description
       details delete (new_request db)).2 in
  (forall k, k ≠ key_of db id -> table w' !! k = db_table db !! k) /\
  (id = New -> db_table db !! key_of db id = None) /\
  files w' = db_files db.
Proof.
  intros Hfetch Hdel Hco Hca Hit Hfe Hex Hflag w'. subst w'.
  rewrite (save_run db id p0 slug title subtitle author_name author_email
             description details delete copyright category itunes_url
             feedburner_url choice flag) by done.
  cbn [snd table files]. split; [|split; [|done]].
  - intros k Hk. by rewrite lookup_insert_ne.
  - intros ->. simpl. apply not_elem_of_dom, is_fresh.
Qed.

(** X10: a submission whose [details] lack one of the five entries
    makes [save] raise [KeyError] on an entry that is missing,
    before anything is added or flushed: the table is as it was. *)
Theorem save_missing_detail db id p0
    slug title subtitle author_name author_email description details
    delete (k : string) :
  fetched db id = Some p0 ->
  truthy delete = false ->
  k ∈ ["copyright"; "category"; "itunes_url"; "feedburner_url"; "explicit"] ->
  details !! k = None ->
  exists k' w',
    save id slug title subtitle author_name author_email description
      details delete (new_request db)
    = (Raise (KeyError k'), w') /\
    details !! k' = None /\
    table w' = db_table db /\
    flushes w' = 0%nat.
Proof.
  intros Hfetch Hdel Hk Hnone.
  unfold save.
  rewrite (bind_ret _ _ _ _ _ (fetch_row_one db id p0 Hfetch)), Hdel.
  do 8 step. unfold getitem.
  destruct (details !! "copyright") eqn:Hco;
    [do 2 step|by eexists _, _].
  destruct (details !! "category") eqn:Hca;
    [do 2 step|by eexists _, _].
  destruct (details !! "itunes_url") eqn:Hit;
    [do 2 step|by eexists _, _].
  destruct (details !! "feedburner_url") eqn:Hfe;
    [do 2 step|by eexists _, _].
  destruct (details !! "explicit") eqn:Hex;
    [|by eexists _, _].
  repeat (apply elem_of_cons in Hk as [->|Hk]; [congruence|]).
  by apply elem_of_nil in Hk.
Qed.

(** What [edit] returns for a podcast that exists. *)
Lemma edit_run db action form_errors id values p0 :
  fetched db id = Some p0 ->
  exists ctx,
    edit action form_errors id values (new_request db)
    = (Ret ctx,
       Build_World [p0] (if is_new id then [] else [0%nat]) []
         (db_table db) 0 ∅ (db_files db)) /\
    podcast ctx = 0%nat /\
    form_values ctx =
      values ∪
      {[ "slug" := Podcast.slug p0;
         "title" := Podcast.title p0;
         "subtitle" := Podcast.subtitle p0;
         "author_name" := author_attr Author.name (Podcast.author p0);
         "author_email" := author_attr Author.email (Podcast.author p0);
         "description" := Podcast.description p0;
         "details" := VDict
           {[ "explicit" := VStr (explicit_display (Podcast.explicit p0));
              "category" := Podcast.category p0;
              "copyright" := Podcast.copyright p0;
              "itunes_url" := Podcast.itunes_url p0;
              "feedburner_url" := Podcast.feedburner_url p0 ]} ]} /\
    thumb_form_errors ctx =
      (if String.eqb action "save_thumb" then form_errors else ∅).
Proof.
  intros Hfetch. unfold edit.
  rewrite (bind_ret _ _ _ _ _ (fetch_row_one db id p0 Hfetch)).
  step. by eexists.
Qed.

(** X11: [edit] only reads: whatever the [id] and the extra values,
    it leaves the table and the files as they were and flushes
    nothing. *)
Theorem edit_reads_only db action form_errors id values :
  let w' := (edit action form_errors id values (new_request db)).2 in
  table w' = db_table db /\ files w' = db_files db /\ flushes w' = 0%nat.
Proof.
  destruct (fetched db id) as [p0|] eqn:Hfetch.
  - destruct (edit_run db action form_errors id values p0 Hfetch)
      as (ctx & -> & _).
    done.
  - destruct id as [|k]; [done|]. simpl in Hfetch.
    destruct (db_table db !! k) eqn:Hrow; [done|].
    unfold edit. by rewrite (bind_raised _ _ _ _ _ (fetch_row_missing db k Hrow)).
Qed.

(** X12: what is resubmitted wins: for a podcast that exists, every
    extra value passed to [edit] appears in the form values as passed,
    and the form values have, besides the extra ones, the seven
    entries the podcast provides. *)
Theorem edit_resubmitted_values_win db action form_errors id values p0 :
  fetched db id = Some p0 ->
  exists ctx w',
    edit action form_errors id values (new_request db) = (Ret ctx, w') /\
    (forall k v, values !! k = Some v -> form_values ctx !! k = Some v) /\
    dom (form_values ctx) =
      dom values ∪
      ({[ "slug"; "title"; "subtitle"; "author_name"; "author_email";
          "description"; "details" ]} : gset string).
Proof.
  intros Hfetch.
  destruct (edit_run db action form_errors id values p0 Hfetch)
    as (ctx & Hrun & _ & Hvalues & _).
  eexists ctx, _. split; [done|]. rewrite Hvalues. split.
  - intros k v Hk. by apply lookup_union_Some_l.
  - rewrite dom_union_L, !dom_insert_L, dom_singleton_L. set_solver.
Qed.

(** X13: the errors of the thumbnail form are shown only when the
    action that failed was [save_thumb]; after any other action
    [edit] passes on none. *)
Theorem edit_thumb_form_errors db action form_errors id values p0 :
  fetched db id = Some p0 ->
  exists ctx w',
    edit action form_errors id values (new_request db) = (Ret ctx, w') /\
    (action = "save_thumb" -> thumb_form_errors ctx = form_errors) /\
    (action ≠ "save_thumb" -> thumb_form_errors ctx = ∅).
Proof.
  intros Hfetch.
  destruct (edit_run db action form_errors id values p0 Hfetch)
    as (ctx & Hrun & _ & _ & Herrors).
  eexists ctx, _. split; [done|]. rewrite Herrors.
  destruct (String.eqb_spec action "save_thumb"); split; congruence.
Qed.

(** X14: what [save] stored, [edit] shows.  After a completed [save],
    [edit] of the podcast's key in the next request, with no extra
    values, shows the submitted title, subtitle, category, copyright
    and URLs, the author's name and e-mail (a falsy one as [None]),
    the cleaned description, the slug that was made available, and
    the choice that stands for the stored explicit flag. *)
Theorem edit_after_save db id p0
    slug title subtitle author_name author_email description details
    delete copyright category itunes_url feedburner_url choice flag
    action form_errors :
  fetched db id = Some p0 ->
  truthy delete = false ->
  details !! "copyright" = Some copyright ->
  details !! "category" = Some category ->
  details !! "itunes_url" = Some itunes_url ->
  details !! "feedburner_url" = Some feedburner_url ->
  details !! "explicit" = Some choice ->
  explicit_parse choice = Ret flag ->
  exists w' ctx w'' shown,
    save id slug title subtitle author_name author_email description
      details delete (new_request db)
    = (Raise (HTTPFound "edit" (Some (key_of db id))), w') /\
    edit action form_errors (Pk (key_of db id)) ∅
      (new_request {| db_table := table w'; db_files := files w' |})
    = (Ret ctx, w'') /\
    form_values ctx !! "slug"
      = Some (get_available_slug (db_table db) slug p0) /\
    form_values ctx !! "title" = Some title /\
    form_values ctx !! "subtitle" = Some subtitle /\
    form_values ctx !! "author_name" = Some (py_or author_name VNone) /\
    form_values ctx !! "author_email" = Some (py_or author_email VNone) /\
    form_values ctx !! "description" = Some (clean_admin_xhtml description) /\
    form_values ctx !! "details" = Some (VDict shown) /\
    shown !! "explicit" = Some (VStr (explicit_display flag)) /\
    shown !! "category" = Some category /\
    shown !! "copyright" = Some copyright /\
    shown !! "itunes_url" = Some itunes_url /\
    shown !! "feedburner_url" = Some feedburner_url.
Proof.
  intros Hfetch Hdel Hco Hca Hit Hfe Hex Hflag.
  pose proof (save_run db id p0 slug title subtitle author_name author_email
                description details delete copyright category itunes_url
                feedburner_url choice flag Hfetch Hdel Hco Hca Hit Hfe Hex
                Hflag) as Hsave.
  cbv zeta in Hsave.
  match type of Hsave with _ = (_, ?w) => exists w end.
  rewrite Hsave. cbn [table files].
  match goal with
  | |- context [new_request ?d] => set (db' := d)
  end.
  edestruct (edit_run db' action form_errors (Pk (key_of db id)) ∅)
    as (ctx & Hrun & _ & Hvalues & _).
  { unfold fetched, db'. cbn [db_table]. rewrite lookup_insert_eq.
    reflexivity. }
  eexists ctx, _, _. split; [done|]. split; [done|].
  rewrite Hvalues, (left_id_L ∅ (∪)).
  cbn [Podcast.set_id Podcast.id Podcast.slug Podcast.title Podcast.subtitle
       Podcast.author Podcast.description Podcast.copyright Podcast.category
       Podcast.itunes_url Podcast.feedburner_url Podcast.explicit
       author_attr Author.name Author.email].
  repeat split;
    repeat (rewrite lookup_insert_ne by done);
    first [apply lookup_insert_eq | apply lookup_singleton_eq].
Qed.

(** ** More on [save_thumb] *)

Lemma flush_one_files w l : files (flush_one w l) = files w.
Proof.
  unfold flush_one. destruct (heap w !! l) as [p|]; [|done].
  destruct (Podcast.id p); [by destruct (mem l (deleted w))|done].
Qed.

Lemma DBSession_flush_files w : files (DBSession_flush w).2 = files w.
Proof.
  simpl. generalize (attached w) as ls. intros ls. revert w.
  induction ls as [|l ls IH]; intros w; simpl; [done|].
  by rewrite IH, flush_one_files.
Qed.

(** The extension is computed without a look at the world. *)
Lemma backup_type_of_pure name w o w' :
  backup_type_of name w = (o, w') ->
  w' = w /\ forall w'', backup_type_of name w'' = (o, w'').
Proof.
  unfold backup_type_of. destruct name as [| | |s|]; try (by intros [= <- <-]).
  destruct (lower (splitext_ext s)); by intros [= <- <-].
Qed.

(** When the [try] block gets through, its last write is the backup. *)
Lemma store_thumbs_backup podcast img thumb w r w' :
  store_thumbs podcast img thumb w = (Ret r, w') ->
  exists p ext,
    heap w' !! podcast = Some p /\
    backup_type_of (filename thumb) w' = (Ret ext, w') /\
    files w' !! thumb_path p "orig" (Some ext) = Some (file thumb).
Proof.
  unfold store_thumbs, bind.
  destruct (podcast_thumb_sizes w) as [[sizes|?] wa]; [|done].
  destruct (for_each _ _ _) as [[[]|?] wb]; [|done].
  destruct (backup_type_of _ _) as [[ext|?] wc] eqn:Hext; [|done].
  apply backup_type_of_pure in Hext as [-> Hext].
  unfold getobj at 1, bind, get.
  destruct (heap wb !! podcast) as [p|] eqn:Hp; [|done]. simpl.
  unfold write_file. destruct (writable _); [|done]. simpl.
  intros [= <- <-]. exists p, ext. split; [done|]. split; [done|].
  apply lookup_insert_eq.
Qed.

Lemma process_thumb_store id podcast thumb w r w' :
  process_thumb id podcast thumb w = (Ret r, w') ->
  exists img w0, store_thumbs podcast img thumb w0 = (Ret r, w').
Proof.
  rewrite process_thumb_eq. unfold bind at 1 2, lift.
  destruct (Image_open (file thumb)) as [img|]; [|done].
  destruct (if is_new id then _ else _) as [[[]|?] w0]; [|done].
  by exists img, w0.
Qed.

(** X15: when the [try] block gets through, [save_thumb] answers
    [success] true with a null [message], and the file at the backup
    path (the podcast's ['orig'] thumbnail path with the lower-cased
    extension of the uploaded name) holds exactly the uploaded
    bytes. *)
Theorem save_thumb_backs_up_original db id thumb podcast w1 r w2 :
  load_podcast id (new_request db) = (Ret podcast, w1) ->
  process_thumb id podcast thumb w1 = (Ret r, w2) ->
  exists body w3 p ext,
    save_thumb id thumb (new_request db) = (Ret body, w3) /\
    body !! "success" = Some (JBool true) /\
    body !! "message" = Some JNull /\
    heap w3 !! podcast = Some p /\
    backup_type_of (filename thumb) w3 = (Ret ext, w3) /\
    files w3 !! thumb_path p "orig" (Some ext) = Some (file thumb).
Proof.
  intros Hload Hproc.
  pose proof (process_thumb_returns _ _ _ _ _ _ Hproc) as ->.
  assert (try_except (process_thumb id podcast thumb) thumb_error w1
          = (Ret (true, None), w2)) as Htry
    by (unfold try_except; by rewrite Hproc).
  pose proof (load_podcast_allocated _ _ _ _ Hload) as Hlt.
  destruct (save_thumb_body _ _ _ _ _ _ _ Hload Hlt Htry)
    as (success & msg & p & [= <- <-] & Hp & ->).
  destruct (process_thumb_store _ _ _ _ _ _ Hproc) as (img & w0 & Hstore).
  destruct (store_thumbs_backup _ _ _ _ _ _ Hstore)
    as (p' & ext & Hp' & Hext & Hfile).
  rewrite Hp in Hp'. injection Hp' as <-.
  apply backup_type_of_pure in Hext as [_ Hext].
  eexists _, _, p, ext. split; [done|].
  by rewrite lookup_body_success, lookup_body_message.
Qed.

(** X16: whenever [save_thumb] answers, the response carries the
    content type that [best_json_content_type] chose. *)
Theorem save_thumb_content_type db id thumb :
  found db id ->
  exists body w',
    save_thumb id thumb (new_request db) = (Ret body, w') /\
    headers w' !! "Content-Type" = Some best_json_content_type.
Proof.
  intros Hfound.
  assert (exists podcast w1,
            load_podcast id (new_request db) = (Ret podcast, w1))
    as (podcast & w1 & Hload).
  { destruct id as [|k]; [by eexists _, _|].
    destruct Hfound as [row Hrow]. eexists _, _.
    by apply fetch_row_pk. }
  destruct (save_thumb_answer db id thumb _ _ Hload)
    as (success & msg & p & _ & -> & _).
  eexists _, _. split; [done|]. apply lookup_insert_eq.
Qed.

(** X17: a thumbnail for an existing podcast never reaches the
    table: whatever the upload and however the [try] block ends,
    [save_thumb] leaves every row as it was and flushes nothing. *)
Theorem save_thumb_existing_keeps_table db k thumb :
  let w' := (save_thumb (Pk k) thumb (new_request db)).2 in
  table w' = db_table db /\ flushes w' = 0%nat.
Proof.
  destruct (db_table db !! k) as [row|] eqn:Hrow.
  - destruct (save_thumb_answer db (Pk k) thumb _ _ (fetch_row_pk db k row Hrow))
      as (success & msg & p & _ & -> & _).
    match goal with
    | |- context [process_thumb _ _ _ ?w] =>
        destruct (process_thumb_pk_same_session k 0%nat thumb w)
          as (_ & _ & _ & Ht & Hf)
    end.
    cbn [snd]. unfold set_headers. cbn [table flushes]. by rewrite Ht, Hf.
  - unfold save_thumb. cbn [is_new].
    by rewrite (bind_raised _ _ _ _ _ (fetch_row_missing db k Hrow)).
Qed.

(** X18: a new podcast is stored as soon as its image opens: when a
    later statement of the [try] block raises, [save_thumb] answers
    [success] false and yet the podcast has been flushed: the [id] of
    the answer is a key that no row had before and under which the
    table now has a row. *)
Theorem save_thumb_new_failure_persists db thumb img e w2 :
  Image_open (file thumb) = Ret img ->
  process_thumb New 0 thumb (set_heap [podcast_stub] (new_request db))
    = (Raise e, w2) ->
  exists body w' k row,
    save_thumb New thumb (new_request db) = (Ret body, w') /\
    body !! "success" = Some (JBool false) /\
    body !! "id" = Some (JInt k) /\
    db_table db !! k = None /\
    table w' !! k = Some row /\
    Podcast.id row = Some k /\
    flushes w' = 1%nat.
Proof.
  intros Himg Hproc.
  set (w1 := set_heap [podcast_stub] (new_request db)) in *.
  assert (try_except (process_thumb New 0 thumb) thumb_error w1
          = (Ret (false, Some (if is_IOError e
                               then "Unsupported image type"
                               else message e)), w2)) as Htry.
  { unfold try_except, thumb_error. rewrite Hproc.
    by destruct (is_IOError e). }
  assert (0 < length (heap w1))%nat as Hlt by (simpl; lia).
  destruct (save_thumb_body _ _ _ _ _ _ _ (load_podcast_new db) Hlt Htry)
    as (success & msg & p & [= <- <-] & Hp & ->).
  subst w1. rewrite (process_thumb_new_opened db thumb img Himg) in Hproc.
  match type of Hproc with
  | store_thumbs _ _ _ ?w = _ =>
      destruct (store_thumbs_same_session 0 img thumb w)
        as (Hh & _ & _ & Ht & Hf)
  end.
  rewrite Hproc in Hh, Ht, Hf. cbn [snd] in Hh, Ht, Hf.
  rewrite Hh in Hp. injection Hp as <-.
  eexists _, _, (fresh (dom (db_table db))), _. split; [done|].
  rewrite lookup_body_success, lookup_body_id.
  split; [done|]. split; [done|].
  split; [apply not_elem_of_dom, is_fresh|].
  unfold set_headers. cbn [table flushes]. rewrite Ht, Hf.
  split; [apply lookup_insert_eq|done].
Qed.

(** X19: when the image opens and [config.thumb_sizes] has no entry
    for the podcast's thumbnail directory, [save_thumb] answers
    [success] false with the name of that directory as [message] (the
    key of the [KeyError]), and no file has been written. *)
Theorem save_thumb_unknown_thumb_dir db id thumb img :
  found db id ->
  Image_open (file thumb) = Ret img ->
  thumb_sizes !! _thumb_dir = None ->
  exists body w',
    save_thumb id thumb (new_request db) = (Ret body, w') /\
    body !! "success" = Some (JBool false) /\
    body !! "message" = Some (JStr _thumb_dir) /\
    files w' = db_files db.
Proof.
  intros Hfound Himg Hsizes.
  assert (exists podcast w1,
            load_podcast id (new_request db) = (Ret podcast, w1) /\
            files w1 = db_files db)
    as (podcast & w1 & Hload & Hfiles).
  { destruct id as [|k]; [by eexists _, _|].
    destruct Hfound as [row Hrow]. eexists _, _.
    split; [by apply fetch_row_pk|done]. }
  assert (exists w2,
            process_thumb id podcast thumb w1
              = (Raise (KeyError _thumb_dir), w2) /\
            files w2 = files w1) as (w2 & Hproc & Hfiles2).
  { rewrite process_thumb_eq. unfold bind at 1 2, lift. rewrite Himg.
    unfold store_thumbs, bind at 2, podcast_thumb_sizes. rewrite Hsizes.
    destruct (is_new id).
    - eexists. split; [reflexivity|].
      change (files (DBSession_flush (DBSession_add podcast w1).2).2
              = files w1).
      rewrite DBSession_flush_files. unfold DBSession_add, modify.
      cbn [snd]. by destruct (mem _ _).
    - by eexists. }
  assert (try_except (process_thumb id podcast thumb) thumb_error w1
          = (Ret (false, Some _thumb_dir), w2)) as Htry
    by (unfold try_except; by rewrite Hproc).
  pose proof (load_podcast_allocated _ _ _ _ Hload) as Hlt.
  destruct (save_thumb_body _ _ _ _ _ _ _ Hload Hlt Htry)
    as (success & msg & p & [= <- <-] & _ & ->).
  eexists _, _. split; [done|].
  rewrite lookup_body_success, lookup_body_message.
  split; [done|]. split; [done|].
  unfold set_headers. cbn [files]. congruence.
Qed.

(** X20: a thumbnail that cannot be written is reported as an
    unsupported image: when the image of an existing podcast opens
    and is resized and encoded, and the first thumbnail path cannot
    be opened for writing, [save_thumb] answers [success] false with
    the [message] ['Unsupported image type']. *)
Theorem save_thumb_unwritable db k row thumb img key xy rest resized bytes :
  db_table db !! k = Some row ->
  Image_open (file thumb) = Ret img ->
  thumb_sizes !! _thumb_dir = Some ((key, xy) :: rest) ->
  resize_thumb img xy = Ret resized ->
  let path := thumb_path (Podcast.set_id (Some k) row) key None in
  Image_encode resized path = Ret bytes ->
  writable path = false ->
  exists body w',
    save_thumb (Pk k) thumb (new_request db) = (Ret body, w') /\
    body !! "success" = Some (JBool false) /\
    body !! "message" = Some (JStr "Unsupported image type").
Proof.
  intros Hrow Himg Hsizes Hresize path Henc Hw. subst path.
  pose proof (fetch_row_pk db k row Hrow) as Hload.
  set (w1 := set_attached _ _) in Hload.
  assert (process_thumb (Pk k) 0 thumb w1
          = (Raise (IOError "No such file or directory"), w1)) as Hproc.
  { rewrite process_thumb_eq.
    erewrite bind_ret by (unfold lift; rewrite Himg; reflexivity).
    cbn [is_new]. erewrite bind_ret by reflexivity.
    unfold store_thumbs.
    erewrite bind_ret
      by (unfold podcast_thumb_sizes; rewrite Hsizes; reflexivity).
    apply bind_raised. cbn [for_each]. apply bind_raised.
    erewrite bind_ret by reflexivity.
    erewrite bind_ret by (unfold lift; rewrite Hresize; reflexivity).
    unfold Image_save.
    erewrite bind_ret by (unfold lift; rewrite Henc; reflexivity).
    unfold write_file. by rewrite Hw. }
  assert (try_except (process_thumb (Pk k) 0 thumb) thumb_error w1
          = (Ret (false, Some "Unsupported image type"), w1)) as Htry
    by (unfold try_except; by rewrite Hproc).
  assert (0 < length (heap w1))%nat as Hlt by (simpl; lia).
  destruct (save_thumb_body db (Pk k) thumb 0%nat w1 _ _ Hload Hlt Htry)
    as (success & msg & p & [= <- <-] & _ & ->).
  eexists _, _. split; [done|].
  by rewrite lookup_body_success, lookup_body_message.
Qed.

End PodcastadminSpec.

(** * The properties at work *)

Section Witnesses.
Import FTPStorageForm Podcastadmin.

Lemma sample_keeps_specifics : keeps_specifics Sample.StorageForm_display.
Proof.
  intros e value. unfold Sample.StorageForm_display, modify. simpl.
  by rewrite lookup_insert_ne.
Qed.

(** Saving an empty path and an RTMP server into the sample engine. *)
Lemma save_engine_params_writes_witness :
  Sample.specifics !! "path" = Some (VStr "") /\
  Sample.specifics !! "rtmp_server_uri" = Some (VStr "rtmp://example.com/") /\
  exists engine',
    save_engine_params (Some Sample.specifics) Sample.engine
      = (Ret tt, engine') /\
    _data engine' !! "path" = Some VNone /\
    _data engine' !! "rtmp_server_uri" = Some (VStr "rtmp://example.com/") /\
    _data engine' !! "ftp_server" = Some (VStr "ftp.example.com").
Proof.
  split; [reflexivity|]. split; [reflexivity|].
  destruct (save_engine_params_writes Sample.engine Sample.specifics
              (VStr "") (VStr "rtmp://example.com/") eq_refl eq_refl)
    as (engine' & Hrun & Hp & Hr & Hother).
  exists engine'. split; [exact Hrun|]. split; [exact Hp|].
  split; [exact Hr|]. rewrite Hother; [reflexivity|discriminate..].
Defined.

(** Saving them and then displaying a blank form. *)
Lemma display_after_save_engine_params_witness :
  exists engine' d',
    save_engine_params (Some Sample.specifics) Sample.engine
      = (Ret tt, engine') /\
    (display Sample.StorageForm_display (Some engine') Sample.blank_value).2
      !! "specifics" = Some (VDict d') /\
    d' !! "path" = Some VNone /\
    d' !! "rtmp_server_uri" = Some (VStr "rtmp://example.com/").
Proof.
  destruct (display_after_save_engine_params Sample.StorageForm_display
              Sample.engine Sample.specifics Sample.blank_value ∅
              (VStr "") (VStr "rtmp://example.com/")
              sample_keeps_specifics eq_refl eq_refl
              (or_intror (conj eq_refl eq_refl)) eq_refl eq_refl)
    as (engine' & d' & Hrun & Hshow & Hp & Hr & Hp' & Hr').
  exists engine', d'. split; [exact Hrun|]. split; [exact Hshow|].
  split; [by rewrite Hp, Hp'|by rewrite Hr, Hr'].
Defined.

(** Displaying a form in which a path was typed already. *)
Lemma display_keeps_present_witness :
  Sample.value !! "specifics" = Some (VDict {[ "path" := VStr "/typed" ]}) /\
  exists specifics',
    (display Sample.StorageForm_display (Some Sample.engine) Sample.value).2
      !! "specifics" = Some (VDict specifics') /\
    specifics' !! "path" = Some (VStr "/typed") /\
    specifics' !! "rtmp_server_uri" = Some VNone.
Proof.
  split; [reflexivity|].
  destruct (display_keeps_present Sample.StorageForm_display Sample.engine
              Sample.value {[ "path" := VStr "/typed" ]}
              sample_keeps_specifics eq_refl)
    as (specifics' & Hshow & Hkeys).
  exists specifics'. split; [exact Hshow|].
  split; rewrite Hkeys; reflexivity.
Defined.

#[local] Existing Instance SampleSite.externals.

(** Showing each flag and saving what is shown; saving ['clean']. *)
Lemma explicit_display_parse_inverse_witness :
  explicit_parse (VStr (explicit_display None)) = Ret None /\
  ("clean" = "yes" \/ "clean" = "clean" \/ "clean" = "no") /\
  exists flag,
    explicit_parse (VStr "clean") = Ret flag /\
    explicit_display flag = "clean".
Proof.
  split; [apply (proj1 explicit_display_parse_inverse)|].
  split; [right; left; reflexivity|].
  apply (proj2 explicit_display_parse_inverse). right; left; reflexivity.
Defined.

(** A text file uploaded as the thumbnail of a new podcast. *)
Lemma save_thumb_IOError_witness :
  load_podcast New (new_request SampleSite.db)
    = (Ret 0%nat, set_heap [podcast_stub] (new_request SampleSite.db)) /\
  process_thumb New 0 SampleSite.text
      (set_heap [podcast_stub] (new_request SampleSite.db))
    = (Raise (IOError "cannot identify image file"),
       set_heap [podcast_stub] (new_request SampleSite.db)) /\
  exists body w3,
    save_thumb New SampleSite.text (new_request SampleSite.db)
      = (Ret body, w3) /\
    body !! "success" = Some (JBool false) /\
    body !! "message" = Some (JStr "Unsupported image type").
Proof.
  assert (load_podcast New (new_request SampleSite.db)
            = (Ret 0%nat, set_heap [podcast_stub] (new_request SampleSite.db)))
    as Hload by reflexivity.
  assert (process_thumb New 0 SampleSite.text
              (set_heap [podcast_stub] (new_request SampleSite.db))
            = (Raise (IOError "cannot identify image file"),
               set_heap [podcast_stub] (new_request SampleSite.db)))
    as Hproc by reflexivity.
  split; [exact Hload|]. split; [exact Hproc|].
  apply (save_thumb_IOError SampleSite.db New SampleSite.text 0%nat
           _ "cannot identify image file" _ Hload Hproc).
Defined.

(** A JPEG file without a file name, uploaded for podcast 7: the
    thumbnails are written, then the backup fails. *)
Lemma save_thumb_other_exception_witness :
  let w1 := (fetch_row (Pk 7) (new_request SampleSite.db)).2 in
  let w2 := (process_thumb (Pk 7) 0 SampleSite.unnamed w1).2 in
  let e := AttributeError "object has no attribute 'rfind'" in
  load_podcast (Pk 7) (new_request SampleSite.db) = (Ret 0%nat, w1) /\
  process_thumb (Pk 7) 0 SampleSite.unnamed w1 = (Raise e, w2) /\
  is_IOError e = false /\
  exists body w3,
    save_thumb (Pk 7) SampleSite.unnamed (new_request SampleSite.db)
      = (Ret body, w3) /\
    body !! "success" = Some (JBool false) /\
    body !! "message" = Some (JStr "object has no attribute 'rfind'").
Proof.
  intros w1 w2 e.
  assert (load_podcast (Pk 7) (new_request SampleSite.db) = (Ret 0%nat, w1))
    as Hload by reflexivity.
  assert (process_thumb (Pk 7) 0 SampleSite.unnamed w1 = (Raise e, w2))
    as Hproc by (vm_compute; reflexivity).
  split; [exact Hload|]. split; [exact Hproc|]. split; [reflexivity|].
  apply (save_thumb_other_exception SampleSite.db (Pk 7) SampleSite.unnamed
           0%nat w1 e w2 Hload Hproc eq_refl).
Defined.

(** A text file uploaded as the thumbnail of a new podcast leaves
    the session and the table alone. *)
Lemma save_thumb_new_not_opened_witness :
  Image_open (file SampleSite.text)
    = Raise (IOError "cannot identify image file") /\
  exists body w',
    save_thumb New SampleSite.text (new_request SampleSite.db)
      = (Ret body, w') /\
    attached w' = [] /\
    flushes w' = 0%nat /\
    table w' = db_table SampleSite.db /\
    body !! "id" = Some JNull.
Proof.
  assert (Image_open (file SampleSite.text)
            = Raise (IOError "cannot identify image file"))
    as Himg by reflexivity.
  split; [exact Himg|].
  apply (save_thumb_new_not_opened SampleSite.db SampleSite.text
           (IOError "cannot identify image file") Himg).
Defined.

(** C2, as stated, fails: a text file uploaded for a new podcast is
    answered with a null [id]. *)
Lemma save_thumb_new_text_null_id :
  let r := save_thumb New SampleSite.text (new_request SampleSite.db) in
  r.1 = Ret SampleSite.refusal /\
  SampleSite.refusal !! "id" = Some JNull /\
  ~ body_with_integer_id SampleSite.refusal.
Proof.
  split; [vm_compute; reflexivity|]. split; [reflexivity|].
  intros (_ & _ & k & Hk). vm_compute in Hk. discriminate Hk.
Qed.

(** A JPEG file uploaded for podcast 7. *)
Lemma save_thumb_response_witness :
  found SampleSite.db (Pk 7) /\
  exists body w',
    save_thumb (Pk 7) SampleSite.jpeg (new_request SampleSite.db)
      = (Ret body, w') /\
    dom body = ({[ "success"; "message"; "id" ]} : gset string) /\
    body !! "id" = Some (JInt 7).
Proof.
  assert (found SampleSite.db (Pk 7)) as Hfound by (eexists; reflexivity).
  split; [exact Hfound|].
  destruct (save_thumb_response SampleSite.db (Pk 7) SampleSite.jpeg Hfound)
    as (body & w' & success & Hrun & Hdom & _ & _ & Hid).
  exists body, w'. split; [exact Hrun|]. split; [exact Hdom|exact Hid].
Defined.

(** Deleting podcast 7. *)
Lemma save_delete_witness :
  db_table SampleSite.db !! 7 = Some SampleSite.weekly /\
  truthy (VStr "Delete") = true /\
  exists w',
    save (Pk 7) (VStr "weekly") (VStr "Weekly") VNone (VStr "Ann")
      (VStr "ann@example.com") (VStr "Every week.") SampleSite.details
      (VStr "Delete") (new_request SampleSite.db)
    = (Raise (HTTPFound "index" None), w') /\
    table w' = base.delete 7 (db_table SampleSite.db) /\
    attached w' = [] /\
    flushes w' = 1%nat /\
    heap w' = [Podcast.set_id (Some 7) SampleSite.weekly].
Proof.
  assert (db_table SampleSite.db !! 7 = Some SampleSite.weekly)
    as Hrow by reflexivity.
  assert (truthy (VStr "Delete") = true) as Hdel by reflexivity.
  split; [exact Hrow|]. split; [exact Hdel|].
  apply (save_delete SampleSite.db 7 SampleSite.weekly (VStr "weekly")
           (VStr "Weekly") VNone (VStr "Ann") (VStr "ann@example.com")
           (VStr "Every week.") SampleSite.details (VStr "Delete")
           Hrow Hdel).
Defined.

(** Creating a podcast. *)
Lemma save_persists_witness :
  fetched SampleSite.db New = Some Podcast.new /\
  truthy VNone = false /\
  SampleSite.details !! "copyright" = Some (VStr "2010") /\
  SampleSite.details !! "category" = Some (VStr "Arts") /\
  SampleSite.details !! "itunes_url" = Some VNone /\
  SampleSite.details !! "feedburner_url" = Some VNone /\
  SampleSite.details !! "explicit" = Some (VStr "yes") /\
  explicit_parse (VStr "yes") = Ret (Some true) /\
  exists w',
    save New (VStr "news") (VStr "News") VNone (VStr "Ann")
      (VStr "ann@example.com") (VStr "Hello") SampleSite.details VNone
      (new_request SampleSite.db)
    = (Raise (HTTPFound "edit" (Some 8)), w') /\
    Podcast.description <$> table w' !! 8 = Some (VStr "<p>Hello</p>").
Proof.
  repeat (split; [reflexivity|]).
  destruct (save_persists (H := SampleSite.externals)
              SampleSite.db New Podcast.new (VStr "news")
              (VStr "News") VNone (VStr "Ann") (VStr "ann@example.com")
              (VStr "Hello") SampleSite.details VNone
              (VStr "2010") (VStr "Arts") VNone VNone (VStr "yes")
              (Some true)
              eq_refl eq_refl eq_refl eq_refl eq_refl eq_refl eq_refl
              eq_refl)
    as (w' & Hrun & _ & Hrow).
  exists w'. split; [exact Hrun|].
  change (key_of SampleSite.db New) with 8 in Hrow.
  rewrite Hrow. reflexivity.
Defined.

(** C4, as stated, fails: the description that is stored is not the
    one submitted. *)
Lemma save_description_not_as_submitted :
  let r :=
    save New (VStr "news") (VStr "News") VNone (VStr "Ann")
      (VStr "ann@example.com") (VStr "Hello") SampleSite.details VNone
      (new_request SampleSite.db) in
  r.1 = Raise (HTTPFound "edit" (Some 8)) /\
  table r.2 !! 8 = Some SampleSite.news /\
  Podcast.description SampleSite.news = VStr "<p>Hello</p>" /\
  ~ stored_as_submitted SampleSite.news
      (VStr "News") VNone (VStr "Ann") (VStr "ann@example.com")
      (VStr "Hello") (VStr "2010") (VStr "Arts") VNone VNone (Some true).
Proof.
  split; [vm_compute; reflexivity|]. split; [vm_compute; reflexivity|].
  split; [reflexivity|].
  intros (_ & _ & _ & Hdescr & _). discriminate Hdescr.
Qed.
(** ** Errors, repetition and the way back, at work *)

(** A submission with an RTMP server and no path. *)
Lemma save_engine_params_rejects_witness :
  ({[ "rtmp_server_uri" := VStr "rtmp://example.com/" ]} : gmap string val)
    !! "path" = None /\
  save_engine_params
    (Some {[ "rtmp_server_uri" := VStr "rtmp://example.com/" ]}) Sample.engine
  = (Raise (KeyError "path"), Sample.engine).
Proof.
  split; [reflexivity|].
  apply (save_engine_params_rejects
           (Some {[ "rtmp_server_uri" := VStr "rtmp://example.com/" ]})
           Sample.engine).
  reflexivity.
Defined.

(** A submission with a path and no RTMP server. *)
Lemma save_engine_params_partial_witness :
  ({[ "path" := VStr "/srv" ]} : gmap string val) !! "path"
    = Some (VStr "/srv") /\
  ({[ "path" := VStr "/srv" ]} : gmap string val) !! "rtmp_server_uri"
    = None /\
  save_engine_params (Some {[ "path" := VStr "/srv" ]}) Sample.engine
  = (Raise (KeyError "rtmp_server_uri"),
     {| _data := <["path" := VStr "/srv"]> (_data Sample.engine) |}).
Proof.
  split; [reflexivity|]. split; [reflexivity|].
  apply (save_engine_params_partial {[ "path" := VStr "/srv" ]}
           Sample.engine (VStr "/srv")); reflexivity.
Defined.

(** The sample submission after a half-failed one. *)
Lemma save_engine_params_overrides_witness :
  Sample.specifics !! "path" = Some (VStr "") /\
  Sample.specifics !! "rtmp_server_uri" = Some (VStr "rtmp://example.com/") /\
  save_engine_params (Some Sample.specifics)
    (save_engine_params (Some {[ "path" := VStr "/srv" ]}) Sample.engine).2
  = save_engine_params (Some Sample.specifics) Sample.engine.
Proof.
  split; [reflexivity|]. split; [reflexivity|].
  apply (save_engine_params_overrides (Some {[ "path" := VStr "/srv" ]})
           Sample.specifics Sample.engine (VStr "")
           (VStr "rtmp://example.com/")); reflexivity.
Defined.

(** A form value whose ['specifics'] are a string. *)
Lemma display_refuses_witness :
  exists e,
    display Sample.StorageForm_display (Some Sample.engine)
      {[ "specifics" := VStr "path" ]}
    = (Raise e, {[ "specifics" := VStr "path" ]}) /\
    exists msg, e = AttributeError msg.
Proof.
  destruct (display_refuses Sample.StorageForm_display (Some Sample.engine)
              {[ "specifics" := VStr "path" ]}) as (e & Hrun & _ & He).
  { right. exists (VStr "path"). split; [reflexivity|]. discriminate. }
  exists e. split; [exact Hrun|]. apply He. eexists. reflexivity.
Defined.

(** The general settings of the sample form value. *)
Lemma display_defaults_frame_witness :
  "general" ≠ "specifics" /\
  (display_defaults (Some Sample.engine) Sample.value).2 !! "general"
  = Some (VDict {[ "display_name" := VStr "FTP" ]}).
Proof.
  assert ("general" ≠ "specifics") as Hne by discriminate.
  split; [exact Hne|].
  rewrite (display_defaults_frame (Some Sample.engine) Sample.value
             "general" Hne).
  reflexivity.
Defined.

(** Displaying a stored engine in a blank form and saving it back. *)
Lemma save_engine_params_after_display_witness :
  exists d',
    (display Sample.StorageForm_display (Some SampleSites.stored_engine)
       Sample.blank_value).2 !! "specifics" = Some (VDict d') /\
    save_engine_params (Some d') SampleSites.stored_engine
    = (Ret tt, SampleSites.stored_engine).
Proof.
  apply (save_engine_params_after_display Sample.StorageForm_display
           SampleSites.stored_engine Sample.blank_value ∅
           (VStr "/media") VNone sample_keeps_specifics
           (or_intror (conj eq_refl eq_refl))
           eq_refl eq_refl eq_refl eq_refl eq_refl eq_refl).
Defined.

(** ** More on the controller, at work *)

(** Creating a podcast beside podcast 7. *)
Lemma save_keeps_other_rows_witness :
  let w' :=
    (save New (VStr "news") (VStr "News") VNone (VStr "Ann")
       (VStr "ann@example.com") (VStr "Hello") SampleSite.details VNone
       (new_request SampleSite.db)).2 in
  7 ≠ key_of SampleSite.db New /\
  table w' !! 7 = Some SampleSite.weekly.
Proof.
  intros w'.
  assert (7 ≠ key_of SampleSite.db New) as Hne by (vm_compute; discriminate).
  split; [exact Hne|].
  destruct (save_keeps_other_rows (H := SampleSite.externals)
              SampleSite.db New Podcast.new (VStr "news")
              (VStr "News") VNone (VStr "Ann") (VStr "ann@example.com")
              (VStr "Hello") SampleSite.details VNone
              (VStr "2010") (VStr "Arts") VNone VNone (VStr "yes")
              (Some true)
              eq_refl eq_refl eq_refl eq_refl eq_refl eq_refl eq_refl
              eq_refl)
    as (Hrows & _ & _).
  subst w'. rewrite (Hrows 7 Hne). reflexivity.
Defined.

(** A submission without the copyright. *)
Lemma save_missing_detail_witness :
  SampleSites.short_details !! "copyright" = None /\
  exists k' w',
    save (Pk 7) (VStr "weekly") (VStr "Weekly") VNone (VStr "Ann")
      (VStr "ann@example.com") (VStr "Every week.")
      SampleSites.short_details VNone (new_request SampleSite.db)
    = (Raise (KeyError k'), w') /\
    SampleSites.short_details !! k' = None /\
    table w' = db_table SampleSite.db /\
    flushes w' = 0%nat.
Proof.
  assert (SampleSites.short_details !! "copyright" = None) as Hnone
    by reflexivity.
  split; [exact Hnone|].
  apply (save_missing_detail (H := SampleSite.externals)
           SampleSite.db (Pk 7) (Podcast.set_id (Some 7) SampleSite.weekly)
           (VStr "weekly") (VStr "Weekly") VNone (VStr "Ann")
           (VStr "ann@example.com") (VStr "Every week.")
           SampleSites.short_details VNone "copyright" eq_refl eq_refl).
  - apply list_elem_of_here.
  - exact Hnone.
Defined.

(** Podcast 7 with a resubmitted title. *)
Lemma edit_resubmitted_values_win_witness :
  fetched SampleSite.db (Pk 7)
    = Some (Podcast.set_id (Some 7) SampleSite.weekly) /\
  exists ctx w',
    edit "save" ∅ (Pk 7) {[ "title" := VStr "Weakly" ]}
      (new_request SampleSite.db) = (Ret ctx, w') /\
    form_values ctx !! "title" = Some (VStr "Weakly").
Proof.
  assert (fetched SampleSite.db (Pk 7)
          = Some (Podcast.set_id (Some 7) SampleSite.weekly)) as Hfetch
    by reflexivity.
  split; [exact Hfetch|].
  destruct (edit_resubmitted_values_win (H := SampleSite.externals)
              SampleSite.db "save" ∅ (Pk 7) {[ "title" := VStr "Weakly" ]}
              _ Hfetch) as (ctx & w' & Hrun & Hwin & _).
  exists ctx, w'. split; [exact Hrun|]. apply Hwin. reflexivity.
Defined.

(** Podcast 7 after a failed [save]: no thumbnail errors. *)
Lemma edit_thumb_form_errors_witness :
  fetched SampleSite.db (Pk 7)
    = Some (Podcast.set_id (Some 7) SampleSite.weekly) /\
  exists ctx w',
    edit "save" {[ "title" := VStr "Please enter a value" ]} (Pk 7) ∅
      (new_request SampleSite.db) = (Ret ctx, w') /\
    thumb_form_errors ctx = ∅.
Proof.
  assert (fetched SampleSite.db (Pk 7)
          = Some (Podcast.set_id (Some 7) SampleSite.weekly)) as Hfetch
    by reflexivity.
  split; [exact Hfetch|].
  destruct (edit_thumb_form_errors (H := SampleSite.externals)
              SampleSite.db "save"
              {[ "title" := VStr "Please enter a value" ]} (Pk 7) ∅
              _ Hfetch) as (ctx & w' & Hrun & _ & Hother).
  exists ctx, w'. split; [exact Hrun|]. apply Hother. discriminate.
Defined.

(** Creating a podcast and opening its form. *)
Lemma edit_after_save_witness :
  exists w' ctx w'',
    save New (VStr "news") (VStr "News") VNone (VStr "Ann")
      (VStr "ann@example.com") (VStr "Hello") SampleSite.details VNone
      (new_request SampleSite.db)
    = (Raise (HTTPFound "edit" (Some (key_of SampleSite.db New))), w') /\
    edit "edit" ∅ (Pk (key_of SampleSite.db New)) ∅
      (new_request {| db_table := table w'; db_files := files w' |})
    = (Ret ctx, w'') /\
    form_values ctx !! "title" = Some (VStr "News") /\
    form_values ctx !! "description" = Some (VStr "<p>Hello</p>").
Proof.
  destruct (edit_after_save (H := SampleSite.externals)
              SampleSite.db New Podcast.new (VStr "news")
              (VStr "News") VNone (VStr "Ann") (VStr "ann@example.com")
              (VStr "Hello") SampleSite.details VNone
              (VStr "2010") (VStr "Arts") VNone VNone (VStr "yes")
              (Some true) "edit" ∅
              eq_refl eq_refl eq_refl eq_refl eq_refl eq_refl eq_refl
              eq_refl)
    as (w' & ctx & w'' & shown & Hsave & Hedit & _ & Htitle & _ & _ & _
        & Hdescr & _).
  exists w', ctx, w''. split; [exact Hsave|]. split; [exact Hedit|].
  split; [exact Htitle|exact Hdescr].
Defined.

(** A JPEG file uploaded for podcast 7. *)
Lemma save_thumb_backs_up_original_witness :
  let w1 := (fetch_row (Pk 7) (new_request SampleSite.db)).2 in
  let w2 := (process_thumb (Pk 7) 0 SampleSite.jpeg w1).2 in
  load_podcast (Pk 7) (new_request SampleSite.db) = (Ret 0%nat, w1) /\
  process_thumb (Pk 7) 0 SampleSite.jpeg w1 = (Ret (true, None), w2) /\
  exists body w3 p ext,
    save_thumb (Pk 7) SampleSite.jpeg (new_request SampleSite.db)
      = (Ret body, w3) /\
    body !! "success" = Some (JBool true) /\
    body !! "message" = Some JNull /\
    heap w3 !! 0%nat = Some p /\
    backup_type_of (filename SampleSite.jpeg) w3 = (Ret ext, w3) /\
    files w3 !! thumb_path p "orig" (Some ext) = Some (file SampleSite.jpeg).
Proof.
  intros w1 w2.
  assert (load_podcast (Pk 7) (new_request SampleSite.db) = (Ret 0%nat, w1))
    as Hload by reflexivity.
  assert (process_thumb (Pk 7) 0 SampleSite.jpeg w1 = (Ret (true, None), w2))
    as Hproc by (vm_compute; reflexivity).
  split; [exact Hload|]. split; [exact Hproc|].
  apply (save_thumb_backs_up_original SampleSite.db (Pk 7) SampleSite.jpeg
           0%nat w1 (true, None) w2 Hload Hproc).
Defined.

(** A text file uploaded for podcast 7. *)
Lemma save_thumb_content_type_witness :
  found SampleSite.db (Pk 7) /\
  exists body w',
    save_thumb (Pk 7) SampleSite.text (new_request SampleSite.db)
      = (Ret body, w') /\
    headers w' !! "Content-Type" = Some "application/json".
Proof.
  assert (found SampleSite.db (Pk 7)) as Hfound by (eexists; reflexivity).
  split; [exact Hfound|].
  exact (save_thumb_content_type (H := SampleSite.externals)
           SampleSite.db (Pk 7) SampleSite.text Hfound).
Defined.

(** A JPEG file without a name, uploaded for a new podcast. *)
Lemma save_thumb_new_failure_persists_witness :
  let w1 := set_heap [podcast_stub] (new_request SampleSite.db) in
  let w2 := (process_thumb New 0 SampleSite.unnamed w1).2 in
  let e := AttributeError "object has no attribute 'rfind'" in
  Image_open (file SampleSite.unnamed) = Ret (file SampleSite.unnamed) /\
  process_thumb New 0 SampleSite.unnamed w1 = (Raise e, w2) /\
  exists body w' k row,
    save_thumb New SampleSite.unnamed (new_request SampleSite.db)
      = (Ret body, w') /\
    body !! "success" = Some (JBool false) /\
    body !! "id" = Some (JInt k) /\
    db_table SampleSite.db !! k = None /\
    table w' !! k = Some row /\
    Podcast.id row = Some k /\
    flushes w' = 1%nat.
Proof.
  intros w1 w2 e.
  assert (Image_open (file SampleSite.unnamed)
          = Ret (file SampleSite.unnamed)) as Himg by reflexivity.
  assert (process_thumb New 0 SampleSite.unnamed w1 = (Raise e, w2))
    as Hproc by (vm_compute; reflexivity).
  split; [exact Himg|]. split; [exact Hproc|].
  apply (save_thumb_new_failure_persists (H := SampleSite.externals)
           SampleSite.db SampleSite.unnamed
           (file SampleSite.unnamed) e w2 Himg Hproc).
Defined.

(** A JPEG file uploaded where no thumbnail sizes are configured. *)
Lemma save_thumb_unknown_thumb_dir_witness :
  found SampleSite.db (Pk 7) /\
  Image_open (Externals := SampleSites.unconfigured) (file SampleSite.jpeg)
    = Ret (file SampleSite.jpeg) /\
  thumb_sizes (Externals := SampleSites.unconfigured)
    !! _thumb_dir (Externals := SampleSites.unconfigured) = None /\
  exists body w',
    save_thumb (H := SampleSites.unconfigured) (Pk 7) SampleSite.jpeg
      (new_request SampleSite.db) = (Ret body, w') /\
    body !! "success" = Some (JBool false) /\
    body !! "message" = Some (JStr "podcasts") /\
    files w' = db_files SampleSite.db.
Proof.
  assert (found SampleSite.db (Pk 7)) as Hfound by (eexists; reflexivity).
  assert (Image_open (Externals := SampleSites.unconfigured)
            (file SampleSite.jpeg) = Ret (file SampleSite.jpeg))
    as Himg by reflexivity.
  assert (thumb_sizes (Externals := SampleSites.unconfigured)
            !! _thumb_dir (Externals := SampleSites.unconfigured) = None)
    as Hsizes by reflexivity.
  split; [exact Hfound|]. split; [exact Himg|]. split; [exact Hsizes|].
  apply (save_thumb_unknown_thumb_dir (H := SampleSites.unconfigured)
           SampleSite.db (Pk 7) SampleSite.jpeg (file SampleSite.jpeg)
           Hfound Himg Hsizes).
Defined.

(** A JPEG file uploaded where the image directory is read-only. *)
Lemma save_thumb_unwritable_witness :
  db_table SampleSite.db !! 7 = Some SampleSite.weekly /\
  writable (Externals := SampleSites.read_only) "/images/podcasts/s.jpg"
    = false /\
  exists body w',
    save_thumb (H := SampleSites.read_only) (Pk 7) SampleSite.jpeg
      (new_request SampleSite.db) = (Ret body, w') /\
    body !! "success" = Some (JBool false) /\
    body !! "message" = Some (JStr "Unsupported image type").
Proof.
  assert (db_table SampleSite.db !! 7 = Some SampleSite.weekly) as Hrow
    by reflexivity.
  split; [exact Hrow|]. split; [reflexivity|].
  apply (save_thumb_unwritable (H := SampleSites.read_only)
           SampleSite.db 7 SampleSite.weekly SampleSite.jpeg
           (file SampleSite.jpeg) "s" (128, 72) [("l", (320, 180))]
           (file SampleSite.jpeg) (file SampleSite.jpeg) Hrow);
    reflexivity.
Defined.

End Witnesses.
